(** * ConfiOrato-Ai backend: body-language detector and session API

    A shallow embedding of [src/backend/body_language_detector.py] and
    [src/backend/body_language_api.py], and the properties of the
    per-frame pipeline and of the session scoring engine.

    Conventions of the embedding:
    - Python [int] is [Z]. Python [float] values are exact rationals ([Q]):
      the handlers are embedded with the value each float operation has
      before rounding. Rounding itself is embedded where a property turns
      on it: the percentage loop of [stop_session] is given a second time
      in IEEE-754 binary64, on the kernel's primitive floats
      ([percentages_double]).
    - A Python [dict] is an insertion-ordered association list ([Dict.t]).
    - A raised exception is the left summand of [except]; a handler's
      [try]/[except] is a [match] on it.
    - The process-wide [sessions] dictionary is threaded explicitly: every
      handler takes the store and returns the response with the new store.
    - The handlers are embedded twice. [stop_session] and [analyze_frame]
      take a parsed request: the value [request.json] returned, [None] for
      the JSON body [null], otherwise an object whose [session_id] and
      [image_data] are JSON scalars ([jval]). [stop_session_request] and
      [analyze_frame_request] take whatever [request.json] does: it can
      raise, and the body and its fields can be any JSON value ([json]);
      they add the paths into each handler's outer [except] and agree with
      the first pair on parsed requests.
    - MediaPipe, OpenCV, base64 and the pickled classifier are external:
      they are the variables of [Section Backend]. *)

From Stdlib Require Import String Ascii List ZArith QArith Qminmax Bool Lia Lqa.
From Stdlib Require Import DecimalString DecimalZ.
From Stdlib Require PrimFloat FloatOps SpecFloat.
Import ListNotations.
Open Scope string_scope.

(** ** Python preliminaries *)

(** The exceptions the modelled code can raise, with the text of [str(e)]. *)
Inductive exn : Type :=
| TypeError (msg : string)
| AttributeError (msg : string)
| IndexError (msg : string)
| ValueError (msg : string)
| KeyError (msg : string)
| ZeroDivisionError (msg : string)
| HTTPException (msg : string).

Definition exn_str (e : exn) : string :=
  match e with
  | TypeError m | AttributeError m | IndexError m | ValueError m
  | KeyError m | ZeroDivisionError m | HTTPException m => m
  end.

Definition except (A : Type) : Type := (exn + A)%type.

Definition ok {A : Type} (a : A) : except A := inr a.
Definition raise {A : Type} (e : exn) : except A := inl e.

Definition bind {A B : Type} (m : except A) (k : A -> except B) : except B :=
  match m with
  | inl e => inl e
  | inr a => k a
  end.

Notation "x <- m ;; k" := (bind m (fun x => k))
  (at level 61, m at next level, right associativity).

(** Insertion-ordered dictionaries with string keys. *)
Module Dict.
Section Ops.
Context {V : Type}.

Definition t : Type := list (string * V).

Definition empty : t := [].

Fixpoint get (d : t) (k : string) : option V :=
  match d with
  | [] => None
  | (k', v) :: rest => if String.eqb k' k then Some v else get rest k
  end.

(** [k in d] *)
Definition contains (d : t) (k : string) : bool :=
  match get d k with Some _ => true | None => false end.

(** [d[k]], which raises [KeyError] on an absent key *)
Definition getitem (d : t) (k : string) : except V :=
  match get d k with
  | Some v => ok v
  | None => raise (KeyError k)
  end.

(** [d[k] = v]: an existing key keeps its position, a new key goes last *)
Fixpoint set (d : t) (k : string) (v : V) : t :=
  match d with
  | [] => [(k, v)]
  | (k', v') :: rest =>
      if String.eqb k' k then (k', v) :: rest else (k', v') :: set rest k v
  end.

(** [del d[k]] *)
Fixpoint del (d : t) (k : string) : t :=
  match d with
  | [] => []
  | (k', v') :: rest =>
      if String.eqb k' k then rest else (k', v') :: del rest k
  end.

Definition keys (d : t) : list string := map fst d.
Definition values (d : t) : list V := map snd d.
End Ops.
Arguments t : clear implicits.
End Dict.

(** JSON scalars, as [request.json] hands them to the handlers. Arrays and
    objects (unhashable as dictionary keys) and JSON numbers with a
    fraction are not embedded. *)
Inductive jval : Type :=
| JNull
| JBool (b : bool)
| JInt (n : Z)
| JStr (s : string).

(** Python truth value: [not v] is [negb (truthy v)]. *)
Definition truthy (v : jval) : bool :=
  match v with
  | JNull => false
  | JBool b => b
  | JInt n => negb (Z.eqb n 0)
  | JStr s => negb (String.eqb s "")
  end.

Definition str_of_int (n : Z) : string := NilZero.string_of_int (Z.to_int n).

(** [type(v).__name__] *)
Definition jval_type_name (v : jval) : string :=
  match v with
  | JNull => "NoneType"
  | JBool _ => "bool"
  | JInt _ => "int"
  | JStr _ => "str"
  end.

(** [str(v)] *)
Definition py_str (v : jval) : string :=
  match v with
  | JNull => "None"
  | JBool true => "True"
  | JBool false => "False"
  | JInt n => str_of_int n
  | JStr s => s
  end.

(** [int(x)] of a float truncates toward zero. *)
Definition py_int (x : Q) : Z := Z.quot (Qnum x) (Z.pos (Qden x)).

(** [data.get(k)]: an absent key reads as [None]. *)
Definition data_get (data : Dict.t jval) (k : string) : jval :=
  match Dict.get data k with Some v => v | None => JNull end.

(** [a / b] on integers (true division): the exact quotient. The
    interpreter returns this quotient rounded to the nearest double;
    [py_truediv_double] below is the rounded operation. *)
Definition py_truediv (a b : Z) : except Q :=
  if Z.eqb b 0 then raise (ZeroDivisionError "division by zero")
  else ok (inject_Z a / inject_Z b)%Q.

Definition Qlt_bool (a b : Q) : bool := negb (Qle_bool b a).

(** [min(a, b)] and [max(a, b)] return the first argument unless the
    second is strictly smaller (resp. larger). *)
Definition py_min (a b : Q) : Q := if Qlt_bool b a then b else a.
Definition py_max (a b : Q) : Q := if Qlt_bool a b then b else a.

(** [sum(l)] *)
Definition py_sum (l : list Q) : Q := fold_left Qplus l 0%Q.

(** [s.split(c)] for a one-character separator *)
Fixpoint split_on (c : ascii) (s : string) : list string :=
  match s with
  | EmptyString => [EmptyString]
  | String a rest =>
      if Ascii.eqb a c then EmptyString :: split_on c rest
      else match split_on c rest with
           | h :: tl => String a h :: tl
           | [] => [String a EmptyString]
           end
  end.

(** [l[i]] on a list *)
Definition list_getitem {A : Type} (l : list A) (i : nat) : except A :=
  match nth_error l i with
  | Some a => ok a
  | None => raise (IndexError "list index out of range")
  end.

(** [l.index(a)] on a list of strings *)
Fixpoint list_index (l : list string) (a : string) : except nat :=
  match l with
  | [] => raise (ValueError (a ++ " is not in list"))
  | b :: rest => if String.eqb b a then ok 0%nat
                 else (i <- list_index rest a ;; ok (S i))
  end.

(** [needle in haystack] on strings *)
Fixpoint str_contains (haystack needle : string) : bool :=
  if String.prefix needle haystack then true
  else match haystack with
       | EmptyString => false
       | String _ rest => str_contains rest needle
       end.

(** ** The detector: [body_language_detector.py] *)

(** One MediaPipe landmark. *)
Record Landmark : Type := mkLandmark {
  x : Q;
  y : Q;
  z : Q;
  visibility : Q
}.

(** What [holistic.process] returns: each group is [None] or a landmark
    list (a protobuf message, which is truthy whenever it is not [None]). *)
Record Results : Type := mkResults {
  pose_landmarks : option (list Landmark);
  face_landmarks : option (list Landmark)
}.

(** The dictionary [{'class': ..., 'confidence': ...}]. *)
Record Prediction : Type := mkPrediction {
  class : string;
  confidence : Q
}.

(** The unpickled scikit-learn pipeline, applied to one feature vector. *)
Record Model : Type := mkModel {
  predict : list Q -> except string;
  predict_proba : list Q -> except (list Q);
  classes_ : list string
}.

Definition pose_row (landmark : Landmark) : list Q :=
  [x landmark; y landmark; z landmark; visibility landmark].

Definition face_row (landmark : Landmark) : list Q :=
  [x landmark; y landmark; z landmark; 0%Q].

(** [BodyLanguageDetector._extract_landmarks]; [concat] is
    [np.array(...).flatten().tolist()] on rows of equal length. *)
Definition _extract_landmarks (results : Results) : option (list Q) :=
  match pose_landmarks results with
  | Some landmarks =>
      let pose := map pose_row landmarks in
      let face :=
        match face_landmarks results with
        | Some landmarks => map face_row landmarks
        | None => repeat [0%Q; 0%Q; 0%Q; 0%Q] 468
        end in
      Some (concat (pose ++ face))
  | None => None
  end.

(** The body of the [try] block of [process_frame]. *)
Definition classify (model : Model) (pose : list Q) : except Prediction :=
  body_language_class <- predict model pose ;;
  body_language_prob <- predict_proba model pose ;;
  i <- list_index (classes_ model) body_language_class ;;
  confidence <- list_getitem body_language_prob i ;;
  ok (mkPrediction body_language_class confidence).

(** The loading of the model in [BodyLanguageDetector.__init__]: [load] is
    the outcome of opening and unpickling [body_language.pkl]; any
    exception leaves [self.model = None]. *)
Definition load_model (load : except Model) : option Model :=
  match load with
  | inr m => Some m
  | inl _ => None
  end.

Section Detector.
(** An image, and the OpenCV / MediaPipe operations on it. *)
Variable frame : Type.
Variable holistic_process : frame -> Results.
Variable draw_landmarks : frame -> list Landmark -> frame.
Variable putText : frame -> Prediction -> frame.

(** [self.model]: [None] when the pickle could not be loaded. *)
Variable model : option Model.

(** [BodyLanguageDetector.process_frame] *)
Definition process_frame (image : frame) : frame * option Prediction :=
  let results := holistic_process image in
  let annotated_image := image in
  match pose_landmarks results with
  | Some landmarks =>
      let annotated_image := draw_landmarks annotated_image landmarks in
      let pose := _extract_landmarks results in
      match model, pose with
      | Some m, Some pose =>
          match classify m pose with
          | inr prediction => (putText annotated_image prediction, Some prediction)
          | inl _ => (annotated_image, None)
          end
      | _, _ => (annotated_image, None)
      end
  | None => (annotated_image, None)
  end.
End Detector.

(** ** The session API: [body_language_api.py] *)

(** A value of the [sessions] dictionary. *)
Record Session : Type := mkSession {
  start_time : Q;
  frames_processed : Z;
  detections : list (option Prediction)
}.

(** A value of [gesture_percentages]. *)
Record GesturePercentage : Type := mkGesturePercentage {
  gesture_name : string;
  gesture_count : Z;
  gesture_percentage : Q
}.

(** The report [stop_session] returns for a session it found. *)
Module Report.
Record t : Type := mk {
  session_id : string;
  duration : Q;
  frames_processed : Z;
  gesture_percentages : Dict.t GesturePercentage;
  allowed_gestures : Dict.t GesturePercentage;
  disallowed_gestures : Dict.t GesturePercentage;
  feedback : string;
  overall_score : Q
}.
End Report.

(** The JSON bodies the three handlers produce. *)
Inductive Body : Type :=
| Started (session_id message : string)
| ErrorOnly (error : string)
| ErrorMetrics (error : string)
    (* {'error': ..., 'metrics': {}} *)
| FrameResult (processed_image : string) (prediction : option Prediction)
    (error : option string)
| NotFoundReport (error : string) (session_id : jval) (duration : Q)
    (frames_processed : Z) (gesture_percentages : Dict.t GesturePercentage)
    (feedback : string) (overall_score : Q)
    (* also carries 'metrics': {} *)
| SessionReport (report : Report.t).

(** A response: the HTTP status and the body. *)
Definition Response : Type := (Z * Body)%type.

Definition positive_open_palm : string :=
  "✓ Your open palm gestures convey openness and honesty.
".
Definition corrective_open_palm : string :=
  "✗ Try using more open palm gestures to appear more trustworthy.
".
Definition positive_thumbs_up : string :=
  "✓ Your positive gestures like thumbs up help reinforce key points.
".
Definition positive_pointing : string :=
  "✓ Your pointing gestures effectively direct attention.
".
Definition corrective_crossed_arms : string :=
  "✗ Reduce crossed arms posture as it can appear defensive or closed off.
".
Definition positive_posture : string :=
  "✓ You maintained an open posture throughout most of your presentation.
".
Definition corrective_victorious : string :=
  "✗ Limit victory signs as they may appear unprofessional in formal settings.
".
Definition general_header : string :=
  "
General recommendations:
".
Definition advice_posture : string :=
  "• Maintain balanced posture and avoid slouching
".
Definition advice_hands : string :=
  "• Use purposeful hand movements to emphasize points
".
Definition advice_eye_contact : string :=
  "• Keep steady eye contact with your audience
".
Definition advice_variety : string :=
  "• Vary your gestures to maintain audience engagement
".

(** ['g' in gesture_percentages and
     gesture_percentages['g']['gesture_percentage'] > threshold] *)
Definition exceeds (gesture_percentages : Dict.t GesturePercentage)
    (gesture : string) (threshold : Q) : bool :=
  match Dict.get gesture_percentages gesture with
  | Some g => Qlt_bool threshold (gesture_percentage g)
  | None => false
  end.

(** [generate_feedback] *)
Definition generate_feedback (gesture_percentages : Dict.t GesturePercentage)
    : string :=
  let feedback := "Based on your body language analysis:

" in
  let feedback :=
    if exceeds gesture_percentages "Open Palm" 20
    then feedback ++ positive_open_palm
    else feedback ++ corrective_open_palm in
  let feedback :=
    if exceeds gesture_percentages "Thumbs Up" 10
    then feedback ++ positive_thumbs_up
    else feedback in
  let feedback :=
    if exceeds gesture_percentages "Pointing" 10
    then feedback ++ positive_pointing
    else feedback in
  let feedback :=
    if exceeds gesture_percentages "Crossed Arms" 15
    then feedback ++ corrective_crossed_arms
    else feedback ++ positive_posture in
  let feedback :=
    if exceeds gesture_percentages "Victorious" 15
    then feedback ++ corrective_victorious
    else feedback in
  let feedback := feedback ++ general_header in
  let feedback := feedback ++ advice_posture in
  let feedback := feedback ++ advice_hands in
  let feedback := feedback ++ advice_eye_contact in
  let feedback := feedback ++ advice_variety in
  feedback.

(** The tallying loop of [stop_session]; [detection['class']] on a
    [None] detection raises [TypeError]. *)
Fixpoint tally (detections : list (option Prediction))
    (gesture_counts : Dict.t Z) : except (Dict.t Z) :=
  match detections with
  | [] => ok gesture_counts
  | detection :: rest =>
      gesture <- match detection with
                 | Some p => ok (class p)
                 | None => raise
                     (TypeError "'NoneType' object is not subscriptable")
                 end ;;
      let gesture_counts :=
        if Dict.contains gesture_counts gesture then gesture_counts
        else Dict.set gesture_counts gesture 0%Z in
      count <- Dict.getitem gesture_counts gesture ;;
      tally rest (Dict.set gesture_counts gesture (count + 1)%Z)
  end.

(** The percentage loop of [stop_session], over [gesture_counts.items()]. *)
Fixpoint percentages (items : list (string * Z)) (total_frames : Z)
    (gesture_percentages : Dict.t GesturePercentage)
    : except (Dict.t GesturePercentage) :=
  match items with
  | [] => ok gesture_percentages
  | (gesture, count) :: rest =>
      ratio <- py_truediv count total_frames ;;
      let percentage := (ratio * 100)%Q in
      percentages rest total_frames
        (Dict.set gesture_percentages gesture
           (mkGesturePercentage gesture count percentage))
  end.

(** *** The percentage loop in double precision

    Lines 146-167 of [stop_session] once more, with the float operations
    as the interpreter performs them: IEEE-754 binary64, round to nearest. *)

(** [float(n)] for a positive integer; exact below 2^53. *)
Fixpoint double_of_pos (p : positive) : PrimFloat.float :=
  match p with
  | xH => PrimFloat.one
  | xO q => PrimFloat.mul PrimFloat.two (double_of_pos q)
  | xI q => PrimFloat.add (PrimFloat.mul PrimFloat.two (double_of_pos q))
              PrimFloat.one
  end.

Definition double_of_int (n : Z) : PrimFloat.float :=
  match n with
  | Z0 => PrimFloat.zero
  | Zpos p => double_of_pos p
  | Zneg p => PrimFloat.opp (double_of_pos p)
  end.

(** [a / b] on integers: the quotient rounded to the nearest double (for
    operands below 2^53 it is the quotient of the two converted
    operands). *)
Definition py_truediv_double (a b : Z) : except PrimFloat.float :=
  if Z.eqb b 0 then raise (ZeroDivisionError "division by zero")
  else ok (PrimFloat.div (double_of_int a) (double_of_int b)).

(** A value of [gesture_percentages], its percentage a double. *)
Record GesturePercentageDouble : Type := mkGesturePercentageDouble {
  double_gesture_name : string;
  double_gesture_count : Z;
  double_gesture_percentage : PrimFloat.float
}.

Fixpoint percentages_double (items : list (string * Z)) (total_frames : Z)
    (gesture_percentages : Dict.t GesturePercentageDouble)
    : except (Dict.t GesturePercentageDouble) :=
  match items with
  | [] => ok gesture_percentages
  | (gesture, count) :: rest =>
      ratio <- py_truediv_double count total_frames ;;
      let percentage := PrimFloat.mul ratio (double_of_int 100) in
      percentages_double rest total_frames
        (Dict.set gesture_percentages gesture
           (mkGesturePercentageDouble gesture count percentage))
  end.

Definition gesture_percentages_double (session_data : Session)
    : except (Dict.t GesturePercentageDouble) :=
  let total_frames := frames_processed session_data in
  if (0 <? total_frames)%Z then
    gesture_counts <- tally (detections session_data) Dict.empty ;;
    percentages_double gesture_counts total_frames Dict.empty
  else ok Dict.empty.




(** [gesture_percentages.get(g, {'gesture_name': g, 'gesture_count': 0,
                                 'gesture_percentage': 0})] *)
Definition bucket_entry (gesture_percentages : Dict.t GesturePercentage)
    (gesture : string) : string * GesturePercentage :=
  (gesture,
   match Dict.get gesture_percentages gesture with
   | Some g => g
   | None => mkGesturePercentage gesture 0 0
   end).

(** [sum([g['gesture_percentage'] for g in bucket.values()])] *)
Definition bucket_percentage (bucket : Dict.t GesturePercentage) : Q :=
  py_sum (map gesture_percentage (Dict.values bucket)).

(** Lines 142-191 of [stop_session]: the report of a session that was
    found, or the exception that escapes to the handler's [except]. *)
Definition score (session_id : string) (session_data : Session)
    (end_time : Q) : except Report.t :=
  let duration := (end_time - start_time session_data)%Q in
  let total_frames := frames_processed session_data in
  gesture_percentages <-
    (if (0 <? total_frames)%Z then
       gesture_counts <- tally (detections session_data) Dict.empty ;;
       percentages gesture_counts total_frames Dict.empty
     else ok Dict.empty) ;;
  let allowed_gestures :=
    [bucket_entry gesture_percentages "Open Palm";
     bucket_entry gesture_percentages "Thumbs Up";
     bucket_entry gesture_percentages "Pointing"] in
  let disallowed_gestures :=
    [bucket_entry gesture_percentages "Crossed Arms";
     bucket_entry gesture_percentages "Victorious"] in
  let feedback := generate_feedback gesture_percentages in
  let overall_score :=
    if (0 <? total_frames)%Z then
      let allowed_percentage := bucket_percentage allowed_gestures in
      let disallowed_percentage := bucket_percentage disallowed_gestures in
      py_min 100 (py_max 0
        (50 + (allowed_percentage - disallowed_percentage) / 2))%Q
    else 0%Q in
  ok (Report.mk session_id duration total_frames gesture_percentages
        allowed_gestures disallowed_gestures feedback overall_score).

(** [[sid for sid in sessions.keys() if str(sid) == str(session_id)]],
    and the rebinding of [session_id] to its first element. *)
Definition matching_sessions (sessions : Dict.t Session) (session_id : jval)
    : list string :=
  filter (fun sid => String.eqb sid (py_str session_id)) (Dict.keys sessions).

Definition resolve (sessions : Dict.t Session) (session_id : jval) : jval :=
  match matching_sessions sessions session_id with
  | sid :: _ => JStr sid
  | [] => session_id
  end.

(** [sessions[session_id]] when [session_id in sessions]: the keys are
    strings, so a number or a boolean is never a key. *)
Definition lookup (sessions : Dict.t Session) (session_id : jval)
    : option (string * Session) :=
  match session_id with
  | JStr sid =>
      match Dict.get sessions sid with
      | Some session_data => Some (sid, session_data)
      | None => None
      end
  | _ => None
  end.

(** [start_session]; the two arguments are the two readings of
    [time.time()]. *)
Definition start_session (sessions : Dict.t Session) (now now' : Q)
    : Response * Dict.t Session :=
  let session_id := str_of_int (py_int now) in
  ((200%Z, Started session_id "Session started successfully"),
   Dict.set sessions session_id (mkSession now' 0 [])).

(** [stop_session] on a parsed request: [data] is what [request.json]
    returned, [None] for the body [null] and otherwise an object with
    scalar fields, and [end_time] is the reading of [time.time()]. The
    requests outside this domain are those of [stop_session_request]. *)
Definition stop_session (sessions : Dict.t Session)
    (data : option (Dict.t jval)) (end_time : Q)
    : Response * Dict.t Session :=
  match data with
  | None | Some [] => ((200%Z, ErrorMetrics "No data provided"), sessions)
  | Some data =>
      let session_id := data_get data "session_id" in
      if negb (truthy session_id)
      then ((200%Z, ErrorMetrics "Missing session_id"), sessions)
      else
        let session_id := resolve sessions session_id in
        match lookup sessions session_id with
        | None =>
            ((200%Z,
              NotFoundReport ("Session ID not found: " ++ py_str session_id)
                session_id 0 0 Dict.empty "No session data available" 0),
             sessions)
        | Some (sid, session_data) =>
            match score sid session_data end_time with
            | inr report =>
                ((200%Z, SessionReport report), Dict.del sessions sid)
            | inl e => ((500%Z, ErrorOnly (exn_str e)), sessions)
            end
        end
  end.

Section Backend.
Variable frame : Type.
Variable holistic_process : frame -> Results.
Variable draw_landmarks : frame -> list Landmark -> frame.
Variable putText : frame -> Prediction -> frame.
Variable model : option Model.

(** [base64.b64decode], [np.frombuffer] and [cv2.imdecode] on the part
    of the data URL after the comma: an exception, [None] or a frame. *)
Variable imdecode : string -> except (option frame).

(** [cv2.imencode('.jpg', ...)] followed by [base64.b64encode]. *)
Variable imencode : frame -> except string.

(** The module-level [detector]. *)
Definition detector_process_frame : frame -> frame * option Prediction :=
  process_frame frame holistic_process draw_landmarks putText model.

(** Lines 65-68 of [analyze_frame]. *)
Definition decode_frame (image_data : jval) : except (option frame) :=
  image_data <- match image_data with
                | JStr s => ok s
                | v => raise (AttributeError
                                ("'" ++ jval_type_name v
                                 ++ "' object has no attribute 'split'"))
                end ;;
  image_data <- list_getitem (split_on "," image_data) 1 ;;
  imdecode image_data.

(** Lines 77-79 of [analyze_frame]. *)
Definition record_detection (sessions : Dict.t Session) (sid : string)
    (prediction : option Prediction) : Dict.t Session :=
  match Dict.get sessions sid with
  | Some s =>
      Dict.set sessions sid
        (mkSession (start_time s)
                   (frames_processed s + 1)
                   (detections s ++ [prediction]))
  | None => sessions
  end.

Definition frame_error (e : exn) : Response :=
  (200%Z, FrameResult "" None (Some ("Error processing frame: " ++ exn_str e))).

(** [analyze_frame] on a parsed request: [data] is what [request.json]
    returned, [None] for the body [null] and otherwise an object with
    scalar fields. The requests outside this domain, which reach the outer
    [except], are those of [analyze_frame_request]. *)
Definition analyze_frame (sessions : Dict.t Session)
    (data : option (Dict.t jval)) : Response * Dict.t Session :=
  match data with
  | None | Some [] => ((400%Z, ErrorOnly "No data provided"), sessions)
  | Some data =>
      let session_id := data_get data "session_id" in
      let image_data := data_get data "image_data" in
      if negb (truthy session_id)
      then ((400%Z, ErrorOnly "Missing session_id"), sessions)
      else if negb (truthy image_data)
      then ((400%Z, ErrorOnly "Missing image_data"), sessions)
      else
        let session_id := resolve sessions session_id in
        match lookup sessions session_id with
        | None =>
            ((200%Z,
              FrameResult "" None (Some "Session not found or expired")),
             sessions)
        | Some (sid, _) =>
            match decode_frame image_data with
            | inl e => (frame_error e, sessions)
            | inr None => ((400%Z, ErrorOnly "Invalid image data"), sessions)
            | inr (Some image) =>
                let '(processed_frame, prediction) :=
                  detector_process_frame image in
                let sessions := record_detection sessions sid prediction in
                match imencode processed_frame with
                | inl e => (frame_error e, sessions)
                | inr processed_image =>
                    ((200%Z,
                      FrameResult
                        ("data:image/jpeg;base64," ++ processed_image)
                        prediction None),
                     sessions)
                end
            end
        end
  end.

(** The requests a client can send. *)
Inductive request : Type :=
| StartSession (now now' : Q)
| AnalyzeFrame (data : option (Dict.t jval))
| StopSession (data : option (Dict.t jval)) (end_time : Q).

Definition handle (sessions : Dict.t Session) (r : request)
    : Response * Dict.t Session :=
  match r with
  | StartSession now now' => start_session sessions now now'
  | AnalyzeFrame data => analyze_frame sessions data
  | StopSession data end_time => stop_session sessions data end_time
  end.

(** The store after a sequence of requests, oldest first. *)
Definition run (sessions : Dict.t Session) (rs : list request)
    : Dict.t Session :=
  fold_left (fun st r => snd (handle st r)) rs sessions.

(** The stores the server can be in: [sessions = {}] at import time,
    then any sequence of requests. *)
Inductive reachable : Dict.t Session -> Prop :=
| reachable_init : reachable Dict.empty
| reachable_step sessions r :
    reachable sessions -> reachable (snd (handle sessions r)).
End Backend.

(** ** Requests as they arrive

    The two handlers above take the parsed body of a well-formed request.
    Here is the whole of what [request.json] can hand to a handler: it can
    raise (no body, malformed JSON, wrong content type), and the body, its
    [session_id] and its [image_data] can be any JSON value. A raising
    [request.json] is a werkzeug [HTTPException]. Whatever
    raises outside the inner [try] reaches the handler's [except
    Exception]: status 500 in [stop_session], status 200 with an error text
    in [analyze_frame]. JSON numbers with a fraction are left out. *)
#[local] Unset Elimination Schemes.
Inductive json : Type :=
| JScalar (v : jval)
| JArray (items : list json)
| JObject (fields : list (string * json)).
#[local] Set Elimination Schemes.

Definition is_scalar (v : json) : bool :=
  match v with JScalar _ => true | _ => false end.

Definition is_object (v : json) : bool :=
  match v with JObject _ => true | _ => false end.

(** [not v] is [negb (json_truthy v)]: an empty list or dict is false. *)
Definition json_truthy (v : json) : bool :=
  match v with
  | JScalar v => truthy v
  | JArray [] | JObject [] => false
  | JArray _ | JObject _ => true
  end.

(** [type(v).__name__] *)
Definition type_name (v : json) : string :=
  match v with
  | JScalar v => jval_type_name v
  | JArray _ => "list"
  | JObject _ => "dict"
  end.

(** [fields.get(k)] *)
Definition json_get (fields : list (string * json)) (k : string) : json :=
  match Dict.get fields k with Some v => v | None => JScalar JNull end.

(** A parsed request as the JSON value it came from. *)
Definition of_parsed (data : option (Dict.t jval)) : json :=
  match data with
  | None => JScalar JNull
  | Some data => JObject (map (fun kv => (fst kv, JScalar (snd kv))) data)
  end.

Section Requests.
Variable frame : Type.
Variable holistic_process : frame -> Results.
Variable draw_landmarks : frame -> list Landmark -> frame.
Variable putText : frame -> Prediction -> frame.
Variable model : option Model.
Variable imdecode : string -> except (option frame).
Variable imencode : frame -> except string.

(** [repr(s)] of a string, with the interpreter's quoting rules. *)
Variable str_repr : string -> string.

(** [repr(v)]: a list prints as [[a, b]] and a dict as [{'k': a}]. *)
Fixpoint py_repr (v : json) : string :=
  match v with
  | JScalar (JStr s) => str_repr s
  | JScalar v => py_str v
  | JArray items => "[" ++ String.concat ", " (map py_repr items) ++ "]"
  | JObject fields =>
      "{" ++ String.concat ", "
               (map (fun kv => str_repr (fst kv) ++ ": " ++ py_repr (snd kv))
                    fields)
          ++ "}"
  end.

(** [str(v)] *)
Definition json_str (v : json) : string :=
  match v with
  | JScalar v => py_str v
  | _ => py_repr v
  end.

(** [jsonify({'error': str(e)}), 500]: the [except] of [stop_session]. *)
Definition stop_fault (e : exn) : Response := (500%Z, ErrorOnly (exn_str e)).

(** The [except] of [analyze_frame], lines 98-104. *)
Definition analyze_fault (e : exn) : Response :=
  (200%Z, FrameResult "" None (Some (exn_str e))).

Definition no_attribute (v : json) (attribute : string) : exn :=
  AttributeError
    ("'" ++ type_name v ++ "' object has no attribute '" ++ attribute ++ "'").

(** [session_id not in sessions] on a list or a dict *)
Definition unhashable (v : json) : exn :=
  TypeError ("unhashable type: '" ++ type_name v ++ "'").

(** [stop_session] on what [request.json] yields. A list or dict as
    [session_id] that prints like a key of the store is rebound to that
    key by the tolerant match, and the handler goes on as for the key; one
    that matches no key makes [session_id not in sessions] raise. *)
Definition stop_session_request (sessions : Dict.t Session)
    (request_json : except json) (end_time : Q)
    : Response * Dict.t Session :=
  match request_json with
  | inl e => (stop_fault e, sessions)
  | inr data =>
      if negb (json_truthy data)
      then ((200%Z, ErrorMetrics "No data provided"), sessions)
      else
        match data with
        | JObject fields =>
            match json_get fields "session_id" with
            | JScalar v =>
                stop_session sessions (Some [("session_id", v)]) end_time
            | session_id =>
                if negb (json_truthy session_id)
                then ((200%Z, ErrorMetrics "Missing session_id"), sessions)
                else
                  match lookup sessions
                          (resolve sessions (JStr (json_str session_id))) with
                  | Some _ =>
                      stop_session sessions
                        (Some [("session_id", JStr (json_str session_id))])
                        end_time
                  | None => (stop_fault (unhashable session_id), sessions)
                  end
            end
        | _ => (stop_fault (no_attribute data "get"), sessions)
        end
  end.

(** [analyze_frame] on what [request.json] yields. *)
Definition analyze_frame_request (sessions : Dict.t Session)
    (request_json : except json) : Response * Dict.t Session :=
  match request_json with
  | inl e => (analyze_fault e, sessions)
  | inr data =>
      if negb (json_truthy data)
      then ((400%Z, ErrorOnly "No data provided"), sessions)
      else
        match data with
        | JObject fields =>
            let session_id := json_get fields "session_id" in
            let image_data := json_get fields "image_data" in
            if negb (json_truthy session_id)
            then ((400%Z, ErrorOnly "Missing session_id"), sessions)
            else if negb (json_truthy image_data)
            then ((400%Z, ErrorOnly "Missing image_data"), sessions)
            else
              match lookup sessions
                      (resolve sessions (JStr (json_str session_id))) with
              | Some (sid, _) =>
                  match image_data with
                  | JScalar w =>
                      analyze_frame frame holistic_process draw_landmarks
                        putText model imdecode imencode sessions
                        (Some [("session_id", JStr sid); ("image_data", w)])
                  | _ =>
                      (frame_error (no_attribute image_data "split"),
                       sessions)
                  end
              | None =>
                  if is_scalar session_id
                  then ((200%Z,
                         FrameResult "" None
                           (Some "Session not found or expired")),
                        sessions)
                  else (analyze_fault (unhashable session_id), sessions)
              end
        | _ => (analyze_fault (no_attribute data "get"), sessions)
        end
  end.
End Requests.

(** ** A concrete instance

    A toy detector, used to run the handlers on concrete requests: an
    image is the landmark set MediaPipe would find in it, drawing leaves it
    unchanged, and the classifier knows the one label "Open Palm". *)
Module Sample.
Definition landmark : Landmark := mkLandmark (1#2) (1#3) (1#4) (9#10).

Definition person : Results := mkResults (Some (repeat landmark 33)) None.
Definition person_with_face : Results :=
  mkResults (Some (repeat landmark 33)) (Some (repeat landmark 468)).
Definition nobody : Results := mkResults None None.

Definition model : Model :=
  mkModel (fun _ => ok "Open Palm") (fun _ => ok [9#10]) ["Open Palm"].

Definition holistic_process (image : Results) : Results := image.
Definition draw_landmarks (image : Results) (_ : list Landmark) := image.
Definition putText (image : Results) (_ : Prediction) := image.

(** The payload "P" decodes to a frame showing a person, "N" to a frame
    showing nobody and anything else is not an image. *)
Definition imdecode (payload : string) : except (option Results) :=
  if String.eqb payload "P" then ok (Some person)
  else if String.eqb payload "N" then ok (Some nobody)
  else ok None.

Definition imencode (_ : Results) : except string := ok "jpg".

Definition analyze_frame :=
  analyze_frame Results holistic_process draw_landmarks putText
    (Some model) imdecode imencode.

Definition reachable :=
  reachable Results holistic_process draw_landmarks putText
    (Some model) imdecode imencode.

Definition frame_request (sid payload : string) : option (Dict.t jval) :=
  Some [("session_id", JStr sid); ("image_data", JStr ("data:," ++ payload))].

Definition stop_request (sid : string) : option (Dict.t jval) :=
  Some [("session_id", JStr sid)].

(** [repr] of a string without quotes, backslashes or control characters *)
Definition str_repr (s : string) : string := "'" ++ s ++ "'".

(** The store after [start_session] at time 7. *)
Definition started : Dict.t Session := snd (start_session Dict.empty 7 7).

(** ... after one frame showing nobody *)
Definition one_empty_frame : Dict.t Session :=
  snd (analyze_frame started (frame_request "7" "N")).

(** ... and after one frame showing a person *)
Definition one_person_frame : Dict.t Session :=
  snd (analyze_frame started (frame_request "7" "P")).

(** ... and after ten frames showing a person *)
Definition ten_person_frames : Dict.t Session :=
  run Results holistic_process draw_landmarks putText (Some model)
    imdecode imencode started
    (repeat (AnalyzeFrame (frame_request "7" "P")) 10).
End Sample.

(** A second toy detector, with three labels: an image is a number that
    MediaPipe reports as the first coordinate of every pose landmark, and
    the classifier reads the label off that coordinate. The payloads "A",
    "B" and anything else decode to images of "Open Palm", "Thumbs Up" and
    "Pointing". *)
Module Rounding.
Definition holistic_process (image : Q) : Results :=
  mkResults (Some (repeat (mkLandmark image 0 0 0) 33)) None.
Definition draw_landmarks (image : Q) (_ : list Landmark) := image.
Definition putText (image : Q) (_ : Prediction) := image.

Definition label_of (pose : list Q) : string :=
  match pose with
  | first :: _ =>
      if Qeq_bool first 1 then "Open Palm"
      else if Qeq_bool first 2 then "Thumbs Up"
      else "Pointing"
  | [] => "Pointing"
  end.

Definition model : Model :=
  mkModel (fun pose => ok (label_of pose))
          (fun _ => ok [1#3; 1#3; 1#3])
          ["Open Palm"; "Thumbs Up"; "Pointing"].

Definition imdecode (payload : string) : except (option Q) :=
  if String.eqb payload "A" then ok (Some 1)
  else if String.eqb payload "B" then ok (Some 2)
  else ok (Some 3).

Definition imencode (_ : Q) : except string := ok "jpg".

Definition reachable :=
  reachable Q holistic_process draw_landmarks putText (Some model)
    imdecode imencode.


End Rounding.

(** ** Vocabulary of the properties *)

(** The condition of each rule of [generate_feedback], in words: the
    gesture is in the mapping and its percentage is above the threshold. *)
Definition percentage_exceeds (gesture_percentages : Dict.t GesturePercentage)
    (gesture : string) (threshold : Q) : Prop :=
  exists g, Dict.get gesture_percentages gesture = Some g
            /\ (threshold < gesture_percentage g)%Q.

Definition null_fault : exn :=
  TypeError "'NoneType' object is not subscriptable".

(** The counter of a session equals the number of its detections. *)
Definition counted (s : Session) : Prop :=
  frames_processed s = Z.of_nat (length (detections s)).

Definition all_counted (sessions : Dict.t Session) : Prop :=
  Forall (fun kv => counted (snd kv)) sessions.

(** The tally of a label in the detections, in words: the number of
    detections whose class is that label. *)
Definition label_count (label : string) (detections : list (option Prediction))
    : Z :=
  Z.of_nat (length (filter
    (fun d => match d with
              | Some p => String.eqb (class p) label
              | None => false
              end) detections)).

(** The percentage recorded for a gesture, 0 when it was never observed. *)
Definition percentage_of (gesture_percentages : Dict.t GesturePercentage)
    (gesture : string) : Q :=
  match Dict.get gesture_percentages gesture with
  | Some g => gesture_percentage g
  | None => 0
  end.


Definition count_in (gesture_counts : Dict.t Z) (gesture : string) : Z :=
  match Dict.get gesture_counts gesture with Some c => c | None => 0%Z end.

Definition sum_counts (gesture_counts : Dict.t Z) : Z :=
  fold_right Z.add 0%Z (Dict.values gesture_counts).

(** The entry the percentage loop writes for one item of the tally. *)
Definition entry_of (total_frames : Z) (item : string * Z)
    : string * GesturePercentage :=
  (fst item,
   mkGesturePercentage (fst item) (snd item)
     (inject_Z (snd item) / inject_Z total_frames * 100)).

(** The entry the percentage loop writes in doubles for one item of the
    tally: the count over the frames, rounded, times 100, rounded. *)
Definition entry_double (total_frames : Z) (item : string * Z)
    : string * GesturePercentageDouble :=
  (fst item,
   mkGesturePercentageDouble (fst item) (snd item)
     (PrimFloat.mul
        (PrimFloat.div (double_of_int (snd item)) (double_of_int total_frames))
        (double_of_int 100))).

(** The tallies of the two buckets of [stop_session] in the detections. *)
Definition allowed_count (detections : list (option Prediction)) : Z :=
  (label_count "Open Palm" detections + label_count "Thumbs Up" detections
   + label_count "Pointing" detections)%Z.

Definition disallowed_count (detections : list (option Prediction)) : Z :=
  (label_count "Crossed Arms" detections
   + label_count "Victorious" detections)%Z.

(** The sum of all recorded gesture counts. *)
Definition total_count (gesture_percentages : Dict.t GesturePercentage) : Z :=
  fold_right Z.add 0%Z (map gesture_count (Dict.values gesture_percentages)).

(** ** The training script: [train_body_language_model.py]

    Only its two constants are embedded: the classes the model is trained
    on and the number of features of a training row. *)
Definition gesture_classes : list string :=
  ["Victorious"; "Thumbs Up"; "Open Palm"; "Pointing"; "Crossed Arms"].

Definition num_features : nat := 33 * 4 + 468 * 4.

(** ** The feature vector *)

Lemma concat_rows_length {A : Type} (f : A -> list Q) (l : list A) :
  (forall a, length (f a) = 4%nat) ->
  length (concat (map f l)) = (4 * length l)%nat.
Proof.
  intros Hf. induction l as [|a l IH]; simpl; [reflexivity|].
  rewrite length_app, Hf, IH. lia.
Qed.

Lemma concat_rows_nth {A : Type} (f : A -> list Q) (l : list A) :
  (forall a, length (f a) = 4%nat) ->
  forall i j a, nth_error l i = Some a -> (j < 4)%nat ->
  nth_error (concat (map f l)) (4 * i + j) = nth_error (f a) j.
Proof.
  intros Hf. induction l as [|b l IH]; intros i j a Hi Hj.
  - destruct i; discriminate.
  - destruct i as [|i]; simpl in Hi.
    + injection Hi as ->. simpl concat.
      rewrite nth_error_app1 by (rewrite Hf; lia).
      f_equal; lia.
    + simpl concat.
      rewrite nth_error_app2 by (rewrite Hf; lia).
      rewrite Hf.
      replace (4 * S i + j - 4)%nat with (4 * i + j)%nat by lia.
      now apply IH.
Qed.

Lemma pose_row_length a : length (pose_row a) = 4%nat.
Proof. reflexivity. Qed.

Lemma face_row_length a : length (face_row a) = 4%nat.
Proof. reflexivity. Qed.

Lemma concat_repeat_zero_rows n :
  concat (repeat [0%Q; 0%Q; 0%Q; 0%Q] n) = repeat 0%Q (4 * n).
Proof.
  induction n as [|n IH]; [reflexivity|].
  replace (4 * S n)%nat with (4 + 4 * n)%nat by lia.
  simpl. now rewrite IH.
Qed.

Lemma skipn_app_exact {A : Type} (l1 l2 : list A) n :
  length l1 = n -> skipn n (l1 ++ l2) = l2.
Proof.
  intros <-. rewrite skipn_app, skipn_all, Nat.sub_diag. reflexivity.
Qed.

Lemma firstn_app_exact {A : Type} (l1 l2 : list A) n :
  length l1 = n -> firstn n (l1 ++ l2) = l1.
Proof.
  intros <-. rewrite firstn_app, firstn_all, Nat.sub_diag, firstn_O.
  now rewrite app_nil_r.
Qed.

(** C2. For a landmark set with pose present (33 pose landmarks, and 468
    face landmarks when the face is present) the extractor builds a vector
    of length exactly 2004: entry [4*i+j] is field [j] of pose landmark [i]
    (x, y, z, visibility), entry [132+4*i+j] is field [j] of face landmark
    [i] (x, y, z, 0); when the face is absent the slice after the first 132
    entries is exactly 1872 zeros. *)
Theorem extract_landmarks_layout (results : Results) (pose : list Landmark) :
  pose_landmarks results = Some pose ->
  length pose = 33%nat ->
  (forall face, face_landmarks results = Some face -> length face = 468%nat) ->
  exists v,
    _extract_landmarks results = Some v
    /\ length v = 2004%nat
    /\ firstn 132 v = concat (map pose_row pose)
    /\ (forall i j a, nth_error pose i = Some a -> (j < 4)%nat ->
          nth_error v (4 * i + j) = nth_error (pose_row a) j)
    /\ (forall face i j a, face_landmarks results = Some face ->
          nth_error face i = Some a -> (j < 4)%nat ->
          nth_error v (132 + (4 * i + j)) = nth_error (face_row a) j)
    /\ (face_landmarks results = None -> skipn 132 v = repeat 0%Q 1872).
Proof.
  intros Hpose Hlen Hface.
  unfold _extract_landmarks. rewrite Hpose.
  cbv zeta. eexists. split; [reflexivity|].
  rewrite concat_app.
  assert (Hp : length (concat (map pose_row pose)) = 132%nat)
    by (rewrite (concat_rows_length _ _ pose_row_length), Hlen; reflexivity).
  repeat split.
  - rewrite length_app, Hp.
    destruct (face_landmarks results) as [face|].
    + rewrite (concat_rows_length _ _ face_row_length), (Hface face eq_refl).
      reflexivity.
    + rewrite concat_repeat_zero_rows, repeat_length. reflexivity.
  - now apply firstn_app_exact.
  - intros i j a Hi Hj.
    assert (i < 33)%nat by (rewrite <- Hlen; apply nth_error_Some; congruence).
    rewrite nth_error_app1 by lia.
    now apply concat_rows_nth.
  - intros face i j a Hf Hi Hj. rewrite Hf.
    rewrite nth_error_app2 by lia. rewrite Hp.
    replace (132 + (4 * i + j) - 132)%nat with (4 * i + j)%nat by lia.
    now apply concat_rows_nth.
  - intros Hf. rewrite Hf, concat_repeat_zero_rows.
    now apply skipn_app_exact.
Qed.

Lemma extract_landmarks_layout_witness :
  exists v,
    _extract_landmarks Sample.person = Some v
    /\ length v = 2004%nat
    /\ skipn 132 v = repeat 0%Q 1872.
Proof.
  destruct (extract_landmarks_layout Sample.person (repeat Sample.landmark 33))
    as (v & Hv & Hlen & _ & _ & _ & Hzero).
  - reflexivity.
  - reflexivity.
  - intros face Hface. discriminate Hface.
  - exists v. repeat split; [exact Hv | exact Hlen | apply Hzero; reflexivity].
Defined.

(** C6. The extractor returns [None] exactly when the pose landmarks are
    absent; in that case [process_frame] returns the frame with a null
    prediction whatever the classifier is (it is never consulted); and
    when the pose landmarks are present a vector is built. *)
Theorem extract_landmarks_none_iff_no_pose (results : Results) :
  (_extract_landmarks results = None <-> pose_landmarks results = None)
  /\ (pose_landmarks results = None ->
      forall (frame : Type) holistic_process draw_landmarks putText
             (model : option Model) (image : frame),
        holistic_process image = results ->
        process_frame frame holistic_process draw_landmarks putText model image
        = (image, None))
  /\ (forall pose, pose_landmarks results = Some pose ->
      exists v, _extract_landmarks results = Some v).
Proof.
  unfold _extract_landmarks, process_frame.
  destruct (pose_landmarks results) as [pose|] eqn:Hpose.
  - split; [split; discriminate|].
    split; [discriminate|].
    intros ? _. eexists; reflexivity.
  - split; [split; reflexivity|].
    split.
    + intros _ frame hp dl pt model image Himg.
      rewrite Himg, Hpose. reflexivity.
    + discriminate.
Qed.

(** ** Feedback text *)

Lemma Qlt_bool_iff a b : Qlt_bool a b = true <-> (a < b)%Q.
Proof.
  unfold Qlt_bool. rewrite negb_true_iff.
  split.
  - intros H. apply Qnot_le_lt. intros Hle.
    apply Qle_bool_iff in Hle. congruence.
  - intros H. destruct (Qle_bool b a) eqn:E; [|reflexivity].
    apply Qle_bool_iff in E. exfalso. exact (Qlt_not_le _ _ H E).
Qed.

Lemma exceeds_iff gp gesture threshold :
  exceeds gp gesture threshold = true <-> percentage_exceeds gp gesture threshold.
Proof.
  unfold exceeds, percentage_exceeds.
  destruct (Dict.get gp gesture) as [g|].
  - rewrite Qlt_bool_iff. split.
    + intros H. now exists g.
    + intros (g' & Hg & H). now injection Hg as ->.
  - split; [discriminate|]. intros (g & Hg & _). discriminate.
Qed.

Lemma exceeds_false_iff gp gesture threshold :
  exceeds gp gesture threshold = false <-> ~ percentage_exceeds gp gesture threshold.
Proof.
  rewrite <- exceeds_iff. destruct (exceeds gp gesture threshold); split;
    congruence.
Qed.

Lemma append_assoc (a b c : string) : (a ++ b) ++ c = a ++ (b ++ c).
Proof. induction a as [|ch a IH]; simpl; [reflexivity|now rewrite IH]. Qed.

Lemma generate_feedback_tail (gp : Dict.t GesturePercentage) :
  exists prefix,
    generate_feedback gp
    = prefix ++ advice_posture ++ advice_hands
             ++ advice_eye_contact ++ advice_variety.
Proof.
  unfold generate_feedback. cbv zeta.
  match goal with
  | |- exists _, (((?p ++ _) ++ _) ++ _) ++ _ = _ => exists p
  end.
  now rewrite 3 append_assoc.
Qed.

(** C5. The feedback text contains the positive Open Palm line exactly
    when Open Palm exceeds 20 and the corrective Open Palm line exactly
    when it does not; the Thumbs Up line exactly when Thumbs Up exceeds 10;
    the Pointing line exactly when Pointing exceeds 10; the corrective
    Crossed Arms line exactly when Crossed Arms exceeds 15 and the positive
    posture line exactly when it does not; the corrective Victorious line
    exactly when Victorious exceeds 15; and it always ends with the four
    general-recommendation lines. *)
Theorem generate_feedback_lines (gp : Dict.t GesturePercentage) :
  let text := generate_feedback gp in
  (str_contains text positive_open_palm = true
     <-> percentage_exceeds gp "Open Palm" 20)
  /\ (str_contains text corrective_open_palm = true
     <-> ~ percentage_exceeds gp "Open Palm" 20)
  /\ (str_contains text positive_thumbs_up = true
     <-> percentage_exceeds gp "Thumbs Up" 10)
  /\ (str_contains text positive_pointing = true
     <-> percentage_exceeds gp "Pointing" 10)
  /\ (str_contains text corrective_crossed_arms = true
     <-> percentage_exceeds gp "Crossed Arms" 15)
  /\ (str_contains text positive_posture = true
     <-> ~ percentage_exceeds gp "Crossed Arms" 15)
  /\ (str_contains text corrective_victorious = true
     <-> percentage_exceeds gp "Victorious" 15)
  /\ (exists prefix,
        text = prefix ++ advice_posture ++ advice_hands
                      ++ advice_eye_contact ++ advice_variety).
Proof.
  intros text. subst text.
  rewrite <- !exceeds_false_iff, <- !exceeds_iff.
  repeat match goal with |- _ /\ _ => split end;
    try apply generate_feedback_tail;
    unfold generate_feedback; cbv zeta;
    destruct (exceeds gp "Open Palm" 20), (exceeds gp "Thumbs Up" 10),
             (exceeds gp "Pointing" 10), (exceeds gp "Crossed Arms" 15),
             (exceeds gp "Victorious" 15);
    vm_compute; split; congruence.
Qed.

(** ** Dictionaries *)

Lemma get_set_same {V : Type} (d : Dict.t V) k v :
  Dict.get (Dict.set d k v) k = Some v.
Proof.
  induction d as [|[k' v'] d IH]; simpl.
  - now rewrite String.eqb_refl.
  - destruct (String.eqb k' k) eqn:E; simpl; rewrite E; [reflexivity|exact IH].
Qed.

Lemma get_set_other {V : Type} (d : Dict.t V) k k' v :
  k <> k' -> Dict.get (Dict.set d k v) k' = Dict.get d k'.
Proof.
  intros Hne. induction d as [|[k0 v0] d IH]; simpl.
  - destruct (String.eqb_spec k k'); congruence.
  - destruct (String.eqb_spec k0 k) as [->|Hk]; simpl.
    + destruct (String.eqb_spec k k'); congruence.
    + now rewrite IH.
Qed.

Lemma get_In {V : Type} (d : Dict.t V) k v :
  Dict.get d k = Some v -> In (k, v) d.
Proof.
  induction d as [|[k' v'] d IH]; simpl; [discriminate|].
  destruct (String.eqb_spec k' k) as [->|Hk].
  - intros [= ->]. now left.
  - intros H. right. now apply IH.
Qed.

Lemma get_None_keys {V : Type} (d : Dict.t V) k :
  Dict.get d k = None <-> ~ In k (Dict.keys d).
Proof.
  induction d as [|[k' v'] d IH]; simpl.
  - tauto.
  - destruct (String.eqb_spec k' k) as [->|Hk].
    + split; [discriminate|]. intros H. exfalso. apply H. now left.
    + rewrite IH. tauto.
Qed.

Lemma set_fresh {V : Type} (d : Dict.t V) k v :
  Dict.get d k = None -> Dict.set d k v = (d ++ [(k, v)])%list.
Proof.
  induction d as [|[k' v'] d IH]; simpl; [reflexivity|].
  destruct (String.eqb k' k); [discriminate|].
  intros H. now rewrite IH.
Qed.

Lemma Forall_set {V : Type} (P : string * V -> Prop) (d : Dict.t V) k v :
  (forall k', P (k', v)) -> Forall P d -> Forall P (Dict.set d k v).
Proof.
  intros Hv. induction 1 as [|[k' v'] d Hx Hd IH]; simpl.
  - constructor; [apply Hv|constructor].
  - destruct (String.eqb k' k); constructor; auto.
Qed.

Lemma Forall_del {V : Type} (P : string * V -> Prop) (d : Dict.t V) k :
  Forall P d -> Forall P (Dict.del d k).
Proof.
  induction 1 as [|[k' v'] d Hx Hd IH]; simpl; [constructor|].
  destruct (String.eqb k' k); [assumption|constructor; assumption].
Qed.

(** ** Session lookup *)

Lemma matching_sessions_found (sessions : Dict.t Session) v s :
  Dict.get sessions (py_str v) = Some s ->
  exists rest, matching_sessions sessions v = py_str v :: rest.
Proof.
  unfold matching_sessions, Dict.keys.
  induction sessions as [|[k s'] d IH]; simpl; [discriminate|].
  destruct (String.eqb_spec k (py_str v)) as [->|Hk].
  - intros _. eexists. reflexivity.
  - exact IH.
Qed.

Lemma matching_sessions_none (sessions : Dict.t Session) v :
  Dict.get sessions (py_str v) = None -> matching_sessions sessions v = [].
Proof.
  unfold matching_sessions, Dict.keys.
  induction sessions as [|[k s'] d IH]; simpl; [reflexivity|].
  destruct (String.eqb k (py_str v)); [discriminate|exact IH].
Qed.

Lemma lookup_found (sessions : Dict.t Session) v s :
  Dict.get sessions (py_str v) = Some s ->
  lookup sessions (resolve sessions v) = Some (py_str v, s).
Proof.
  intros H. unfold resolve.
  destruct (matching_sessions_found _ _ _ H) as [rest ->].
  simpl. now rewrite H.
Qed.

Lemma lookup_absent (sessions : Dict.t Session) v :
  Dict.get sessions (py_str v) = None ->
  resolve sessions v = v /\ lookup sessions (resolve sessions v) = None.
Proof.
  intros H. unfold resolve. rewrite (matching_sessions_none _ _ H).
  split; [reflexivity|].
  destruct v; simpl in *; try reflexivity. now rewrite H.
Qed.

Lemma lookup_Some (sessions : Dict.t Session) v sid s :
  lookup sessions v = Some (sid, s) -> Dict.get sessions sid = Some s.
Proof.
  destruct v; simpl; try discriminate.
  destruct (Dict.get sessions s0) eqn:E; [|discriminate].
  now intros [= <- <-].
Qed.

Lemma data_get_truthy_nonempty (d : Dict.t jval) k :
  truthy (data_get d k) = true -> d <> [].
Proof. intros H ->. discriminate H. Qed.

(** ** The tallying loop *)

Lemma tally_null (detections : list (option Prediction)) :
  In None detections ->
  forall gesture_counts, tally detections gesture_counts = inl null_fault.
Proof.
  induction detections as [|d rest IH]; intros Hin gc; [contradiction|].
  destruct d as [p|]; simpl.
  - destruct Hin as [Hd|Hin]; [discriminate|].
    unfold Dict.getitem.
    destruct (Dict.contains gc (class p)) eqn:E.
    + unfold Dict.contains in E.
      destruct (Dict.get gc (class p)); [|discriminate].
      simpl. now apply IH.
    + rewrite get_set_same. simpl. now apply IH.
  - reflexivity.
Qed.

(** ** Store invariants *)

Lemma all_counted_get sessions sid s :
  all_counted sessions -> Dict.get sessions sid = Some s -> counted s.
Proof.
  intros Hall Hget. apply get_In in Hget.
  unfold all_counted in Hall. rewrite Forall_forall in Hall.
  exact (Hall _ Hget).
Qed.

(** ** Scoring *)

Lemma set_set_same {V : Type} (d : Dict.t V) k a b :
  Dict.set (Dict.set d k a) k b = Dict.set d k b.
Proof.
  induction d as [|[k' v'] d IH]; simpl.
  - now rewrite String.eqb_refl.
  - destruct (String.eqb k' k) eqn:E; simpl; rewrite E; [reflexivity|].
    now rewrite IH.
Qed.

Lemma keys_set_In {V : Type} (d : Dict.t V) k v l :
  In l (Dict.keys (Dict.set d k v)) <-> In l (Dict.keys d) \/ l = k.
Proof.
  unfold Dict.keys.
  induction d as [|[k' v'] d IH]; simpl.
  - intuition congruence.
  - destruct (String.eqb_spec k' k) as [->|Hk]; simpl.
    + intuition congruence.
    + rewrite IH. tauto.
Qed.

Lemma keys_set_NoDup {V : Type} (d : Dict.t V) k v :
  NoDup (Dict.keys d) -> NoDup (Dict.keys (Dict.set d k v)).
Proof.
  induction d as [|[k' v'] d IH]; simpl.
  - intros _. constructor; [intros []|constructor].
  - intros Hnd. inversion Hnd as [|? ? Hnotin Hnd']; subst.
    destruct (String.eqb_spec k' k) as [->|Hk]; simpl.
    + exact Hnd.
    + constructor; [|now apply IH].
      intros Hin. apply (keys_set_In d k v k') in Hin.
      destruct Hin as [Hin|Heq]; [exact (Hnotin Hin)|exact (Hk Heq)].
Qed.

Lemma count_in_set (d : Dict.t Z) k v l :
  count_in (Dict.set d k v) l = if String.eqb k l then v else count_in d l.
Proof.
  unfold count_in. destruct (String.eqb_spec k l) as [->|Hne].
  - now rewrite get_set_same.
  - now rewrite get_set_other.
Qed.

Lemma sum_counts_set (d : Dict.t Z) k v :
  sum_counts (Dict.set d k v) = (sum_counts d - count_in d k + v)%Z.
Proof.
  unfold sum_counts, count_in, Dict.values.
  induction d as [|[k' v'] d IH]; simpl.
  - lia.
  - destruct (String.eqb k' k); simpl; [lia|]. rewrite IH. lia.
Qed.

(** One iteration of the tallying loop on a non-null detection. *)
Lemma tally_step p rest gesture_counts :
  tally (Some p :: rest) gesture_counts
  = tally rest (Dict.set gesture_counts (class p)
                  (count_in gesture_counts (class p) + 1)%Z).
Proof.
  simpl. unfold Dict.getitem, Dict.contains, count_in.
  destruct (Dict.get gesture_counts (class p)) as [c|] eqn:E.
  - rewrite E. reflexivity.
  - rewrite get_set_same. simpl. now rewrite set_set_same.
Qed.

Lemma label_count_cons_some p rest label :
  label_count label (Some p :: rest)
  = ((if String.eqb (class p) label then 1 else 0) + label_count label rest)%Z.
Proof.
  unfold label_count. cbn [filter].
  destruct (String.eqb (class p) label); cbn [length]; lia.
Qed.

Lemma tally_spec detections :
  forall gesture_counts result,
    tally detections gesture_counts = inr result ->
    NoDup (Dict.keys gesture_counts) ->
    NoDup (Dict.keys result)
    /\ (forall l, count_in result l
                  = (count_in gesture_counts l + label_count l detections)%Z)
    /\ (forall l, In l (Dict.keys result) <->
                  In l (Dict.keys gesture_counts)
                  \/ exists p, In (Some p) detections /\ class p = l)
    /\ sum_counts result
       = (sum_counts gesture_counts + Z.of_nat (length detections))%Z.
Proof.
  induction detections as [|d rest IH]; intros gc result Hrun Hnd.
  - injection Hrun as <-.
    split; [exact Hnd|]. split; [|split].
    + intros l. unfold label_count. simpl. lia.
    + intros l. split; [now left|].
      intros [H|(p & [] & _)]. exact H.
    + simpl. lia.
  - destruct d as [p|]; [|discriminate].
    rewrite tally_step in Hrun.
    destruct (IH _ _ Hrun (keys_set_NoDup _ _ _ Hnd))
      as (Hnd' & Hcount & Hkeys & Hsum).
    split; [exact Hnd'|]. split; [|split].
    + intros l. rewrite Hcount, count_in_set, label_count_cons_some.
      destruct (String.eqb_spec (class p) l) as [<-|Hne]; lia.
    + intros l. rewrite Hkeys, keys_set_In. split.
      * intros [[H| ->]|(q & Hq & Hl)].
        -- now left.
        -- right. exists p. split; [now left|reflexivity].
        -- right. exists q. split; [now right|exact Hl].
      * intros [H|(q & [Hq|Hq] & Hl)].
        -- left. now left.
        -- injection Hq as ->. left. right. now symmetry.
        -- right. now exists q.
    + rewrite Hsum, sum_counts_set.
      change (length (Some p :: rest)) with (S (length rest)). lia.
Qed.

Lemma tally_no_division_fault detections :
  forall gesture_counts msg,
    tally detections gesture_counts <> inl (ZeroDivisionError msg).
Proof.
  induction detections as [|d rest IH]; intros gc msg; [discriminate|].
  destruct d as [p|]; [|discriminate].
  rewrite tally_step. apply IH.
Qed.

Lemma get_app {V : Type} (a b : Dict.t V) k :
  Dict.get (a ++ b)%list k
  = match Dict.get a k with Some v => Some v | None => Dict.get b k end.
Proof.
  induction a as [|[k' v'] a IH]; simpl; [reflexivity|].
  destruct (String.eqb k' k); [reflexivity|exact IH].
Qed.

Lemma percentages_spec total_frames :
  total_frames <> 0%Z ->
  forall items acc,
    NoDup (Dict.keys items) ->
    (forall k, In k (Dict.keys items) -> Dict.get acc k = None) ->
    percentages items total_frames acc
    = inr (acc ++ map (entry_of total_frames) items)%list.
Proof.
  intros Hn. induction items as [|[g c] rest IH]; intros acc Hnd Hfresh.
  - simpl. now rewrite app_nil_r.
  - simpl. unfold py_truediv.
    destruct (Z.eqb_spec total_frames 0) as [|_]; [contradiction|].
    simpl. inversion Hnd as [|? ? Hnotin Hnd']; subst.
    rewrite set_fresh by (apply Hfresh; now left).
    rewrite IH.
    + now rewrite <- app_assoc.
    + exact Hnd'.
    + intros k Hk. rewrite get_app, Hfresh by now right.
      simpl. destruct (String.eqb_spec g k) as [->|_]; [contradiction|].
      reflexivity.
Qed.

Lemma percentages_total total_frames :
  total_frames <> 0%Z ->
  forall items acc, exists result,
    percentages items total_frames acc = inr result.
Proof.
  intros Hn. induction items as [|[g c] rest IH]; intros acc.
  - eexists. reflexivity.
  - simpl. unfold py_truediv.
    destruct (Z.eqb_spec total_frames 0) as [|_]; [contradiction|].
    simpl. apply IH.
Qed.

Lemma get_entries total_frames (items : Dict.t Z) l :
  Dict.get (map (entry_of total_frames) items) l
  = match Dict.get items l with
    | Some c => Some (snd (entry_of total_frames (l, c)))
    | None => None
    end.
Proof.
  induction items as [|[g c] rest IH]; simpl; [reflexivity|].
  destruct (String.eqb_spec g l) as [->|_]; [reflexivity|exact IH].
Qed.

Lemma inject_Z_nonzero n : n <> 0%Z -> ~ inject_Z n == 0.
Proof. intros Hn H. apply Hn. unfold Qeq in H. simpl in H. lia. Qed.


(** The shape of a report [score] returns. *)
Lemma score_inv sid s end_time r :
  score sid s end_time = inr r ->
  exists gp,
    (if (0 <? frames_processed s)%Z
     then exists gesture_counts,
            tally (detections s) Dict.empty = inr gesture_counts
            /\ gp = map (entry_of (frames_processed s)) gesture_counts
     else gp = Dict.empty)
    /\ r = Report.mk sid (end_time - start_time s) (frames_processed s) gp
             [bucket_entry gp "Open Palm"; bucket_entry gp "Thumbs Up";
              bucket_entry gp "Pointing"]
             [bucket_entry gp "Crossed Arms"; bucket_entry gp "Victorious"]
             (generate_feedback gp)
             (if (0 <? frames_processed s)%Z
              then py_min 100 (py_max 0
                     (50 + (bucket_percentage
                              [bucket_entry gp "Open Palm";
                               bucket_entry gp "Thumbs Up";
                               bucket_entry gp "Pointing"]
                            - bucket_percentage
                                [bucket_entry gp "Crossed Arms";
                                 bucket_entry gp "Victorious"]) / 2))
              else 0).
Proof.
  unfold score.
  destruct (0 <? frames_processed s)%Z eqn:Hpos.
  - destruct (tally (detections s) Dict.empty) as [e|gc] eqn:Htally;
      [discriminate|].
    simpl bind at 1.
    assert (Hn : frames_processed s <> 0%Z) by (apply Z.ltb_lt in Hpos; lia).
    rewrite (percentages_spec _ Hn gc Dict.empty).
    + simpl. intros [= <-]. eexists. split; [|reflexivity].
      exists gc. split; reflexivity.
    + destruct (tally_spec _ _ _ Htally) as (Hnd & _); [constructor|exact Hnd].
    + reflexivity.
  - simpl. intros [= <-]. eexists. split; reflexivity.
Qed.

Lemma percentages_double_spec total_frames :
  total_frames <> 0%Z ->
  forall items acc,
    NoDup (Dict.keys items) ->
    (forall k, In k (Dict.keys items) -> Dict.get acc k = None) ->
    percentages_double items total_frames acc
    = inr (acc ++ map (entry_double total_frames) items)%list.
Proof.
  intros Hn. induction items as [|[g c] rest IH]; intros acc Hnd Hfresh.
  - simpl. now rewrite app_nil_r.
  - simpl. unfold py_truediv_double.
    destruct (Z.eqb_spec total_frames 0) as [|_]; [contradiction|].
    simpl. inversion Hnd as [|? ? Hnotin Hnd']; subst.
    rewrite set_fresh by (apply Hfresh; now left).
    rewrite IH.
    + now rewrite <- app_assoc.
    + exact Hnd'.
    + intros k Hk. rewrite get_app, Hfresh by now right.
      simpl. destruct (String.eqb_spec g k) as [->|_]; [contradiction|].
      reflexivity.
Qed.

(** The two embeddings of the percentage loop go over the same tally: a
    report has an entry for a label exactly when the loop in doubles has
    one, with the same count. *)
Lemma double_percentages_of_report sid s end_time r :
  score sid s end_time = inr r ->
  exists gesture_counts,
    Report.gesture_percentages r
    = map (entry_of (frames_processed s)) gesture_counts
    /\ gesture_percentages_double s
       = inr (map (entry_double (frames_processed s)) gesture_counts).
Proof.
  intros Hscore.
  destruct (score_inv _ _ _ _ Hscore) as (gp & Hgp & ->).
  cbn [Report.gesture_percentages]. unfold gesture_percentages_double.
  destruct (0 <? frames_processed s)%Z eqn:Hpos.
  - destruct Hgp as (gc & Htally & ->). exists gc.
    split; [reflexivity|]. rewrite Htally. simpl bind.
    apply Z.ltb_lt in Hpos.
    rewrite (percentages_double_spec (frames_processed s)); try reflexivity.
    + lia.
    + destruct (tally_spec _ _ _ Htally) as (Hnd & _); [constructor|exact Hnd].
  - subst gp. exists []. split; reflexivity.
Qed.

Lemma stop_session_report sessions data end_time r sessions' :
  stop_session sessions data end_time = ((200%Z, SessionReport r), sessions') ->
  exists sid s,
    Dict.get sessions sid = Some s
    /\ score sid s end_time = inr r
    /\ sessions' = Dict.del sessions sid.
Proof.
  unfold stop_session.
  destruct data as [[|kv d]|]; try discriminate.
  destruct (negb (truthy _)); [discriminate|].
  destruct (lookup _ _) as [[sid s]|] eqn:Hl; [|discriminate].
  destruct (score sid s end_time) as [e|r'] eqn:Hscore; [discriminate|].
  intros [= <- <-]. exists sid, s.
  split; [exact (lookup_Some _ _ _ _ Hl)|]. split; [exact Hscore|reflexivity].
Qed.

Lemma bucket_entry_percentage gp gesture :
  gesture_percentage (snd (bucket_entry gp gesture)) = percentage_of gp gesture.
Proof.
  unfold bucket_entry, percentage_of. simpl.
  now destruct (Dict.get gp gesture).
Qed.

Lemma py_clamp_eq (e e' : Q) :
  e == e' -> py_min 100 (py_max 0 e) == Qmin 100 (Qmax 0 e').
Proof.
  intros He. unfold py_min, py_max.
  destruct (Q.max_spec 0 e') as [[Hlt Hmax]|[Hle Hmax]];
    destruct (Q.min_spec 100 (Qmax 0 e')) as [[Hlt' Hmin]|[Hle' Hmin]];
    rewrite Hmin; rewrite Hmax in *;
    destruct (Qlt_bool 0 e) eqn:E1;
    try (apply Qlt_bool_iff in E1);
    try (assert (~ 0 < e) by (rewrite <- Qlt_bool_iff; congruence));
    match goal with
    | |- (if Qlt_bool ?a 100 then _ else _) == _ =>
        destruct (Qlt_bool a 100) eqn:E2;
        try (apply Qlt_bool_iff in E2);
        try (assert (~ a < 100) by (rewrite <- Qlt_bool_iff; congruence))
    end;
    lra.
Qed.

(** C3. For the report of a finalized session: the two bucket sums are
    the sums of the three allowed and of the two disallowed percentages;
    with [frames_processed > 0] the score is
    [min(100, max(0, 50 + (allowed - disallowed) / 2))], with
    [frames_processed = 0] it is 0; an allowed sum of 100 with a disallowed
    sum of 0 gives 100, and allowed 0 with disallowed 100 gives 0. *)
Theorem overall_score_is_clamped (sessions : Dict.t Session)
    (data : option (Dict.t jval)) (end_time : Q) (r : Report.t)
    (sessions' : Dict.t Session) :
  stop_session sessions data end_time = ((200%Z, SessionReport r), sessions') ->
  let gp := Report.gesture_percentages r in
  let allowed := percentage_of gp "Open Palm" + percentage_of gp "Thumbs Up"
                 + percentage_of gp "Pointing" in
  let disallowed := percentage_of gp "Crossed Arms"
                    + percentage_of gp "Victorious" in
  bucket_percentage (Report.allowed_gestures r) == allowed
  /\ bucket_percentage (Report.disallowed_gestures r) == disallowed
  /\ ((0 < Report.frames_processed r)%Z ->
      Report.overall_score r
      == Qmin 100 (Qmax 0 (50 + (allowed - disallowed) / 2)))
  /\ (Report.frames_processed r = 0%Z -> Report.overall_score r == 0)
  /\ ((0 < Report.frames_processed r)%Z ->
      allowed == 100 -> disallowed == 0 -> Report.overall_score r == 100)
  /\ ((0 < Report.frames_processed r)%Z ->
      allowed == 0 -> disallowed == 100 -> Report.overall_score r == 0).
Proof.
  intros Hstop gp allowed disallowed.
  destruct (stop_session_report _ _ _ _ _ Hstop) as (sid & s & _ & Hscore & _).
  destruct (score_inv _ _ _ _ Hscore) as (gp0 & _ & Hr).
  subst r.
  cbn [Report.gesture_percentages Report.allowed_gestures
       Report.disallowed_gestures Report.frames_processed
       Report.overall_score] in *.
  assert (Ha : bucket_percentage
                 [bucket_entry gp0 "Open Palm"; bucket_entry gp0 "Thumbs Up";
                  bucket_entry gp0 "Pointing"] == allowed).
  { unfold bucket_percentage, py_sum, Dict.values. cbn [map fold_left].
    rewrite !bucket_entry_percentage. subst allowed gp. ring. }
  assert (Hd : bucket_percentage
                 [bucket_entry gp0 "Crossed Arms";
                  bucket_entry gp0 "Victorious"] == disallowed).
  { unfold bucket_percentage, py_sum, Dict.values. cbn [map fold_left].
    rewrite !bucket_entry_percentage. subst disallowed gp. ring. }
  assert (Hformula : (0 < frames_processed s)%Z ->
            (if (0 <? frames_processed s)%Z
             then py_min 100 (py_max 0
                    (50 + (bucket_percentage
                             [bucket_entry gp0 "Open Palm";
                              bucket_entry gp0 "Thumbs Up";
                              bucket_entry gp0 "Pointing"]
                           - bucket_percentage
                               [bucket_entry gp0 "Crossed Arms";
                                bucket_entry gp0 "Victorious"]) / 2))
             else 0)
            == Qmin 100 (Qmax 0 (50 + (allowed - disallowed) / 2))).
  { intros Hpos. apply Z.ltb_lt in Hpos. rewrite Hpos.
    apply py_clamp_eq. now rewrite Ha, Hd. }
  split; [exact Ha|]. split; [exact Hd|]. split; [exact Hformula|].
  split; [|split].
  - intros ->. reflexivity.
  - intros Hpos H100 H0. rewrite (Hformula Hpos), H100, H0. reflexivity.
  - intros Hpos H0 H100. rewrite (Hformula Hpos), H0, H100. reflexivity.
Qed.

(** C4. [stop_session] never fails with a division by zero. In the report
    of a finalized session, an entry exists for a label exactly when some
    detection carries it (and the session has processed frames); the entry
    holds the label, its tally in the detections and that tally divided by
    [frames_processed] times 100; and with [frames_processed = 0] the
    mapping is empty. *)
Theorem gesture_percentages_by_frames_processed (sessions : Dict.t Session)
    (data : option (Dict.t jval)) (end_time : Q) :
  (forall sid s msg, score sid s end_time <> inl (ZeroDivisionError msg))
  /\ (forall r sessions',
        stop_session sessions data end_time
          = ((200%Z, SessionReport r), sessions') ->
        exists s,
          Dict.get sessions (Report.session_id r) = Some s
          /\ Report.frames_processed r = frames_processed s
          /\ (forall label e,
                Dict.get (Report.gesture_percentages r) label = Some e ->
                frames_processed s <> 0%Z
                /\ gesture_name e = label
                /\ gesture_count e = label_count label (detections s)
                /\ gesture_percentage e
                   == inject_Z (label_count label (detections s))
                      / inject_Z (frames_processed s) * 100)
          /\ (forall label,
                (exists e, Dict.get (Report.gesture_percentages r) label
                           = Some e)
                <-> (0 < frames_processed s)%Z
                    /\ exists p, In (Some p) (detections s)
                                 /\ class p = label)
          /\ (frames_processed s = 0%Z ->
              Report.gesture_percentages r = Dict.empty)).
Proof.
  split.
  - intros sid s msg. unfold score.
    destruct (0 <? frames_processed s)%Z eqn:Hpos; [|discriminate].
    destruct (tally (detections s) Dict.empty) as [e|gc] eqn:Htally.
    + simpl. intros [= He]. exact (tally_no_division_fault _ _ _
                                     (eq_trans Htally (f_equal inl He))).
    + simpl bind at 1.
      assert (Hn : frames_processed s <> 0%Z) by (apply Z.ltb_lt in Hpos; lia).
      destruct (percentages_total _ Hn gc Dict.empty) as [gp ->].
      discriminate.
  - intros r sessions' Hstop.
    destruct (stop_session_report _ _ _ _ _ Hstop)
      as (sid & s & Hget & Hscore & _).
    destruct (score_inv _ _ _ _ Hscore) as (gp & Hgp & ->).
    cbn [Report.gesture_percentages Report.session_id
         Report.frames_processed].
    exists s. split; [exact Hget|]. split; [reflexivity|].
    destruct (0 <? frames_processed s)%Z eqn:Hpos.
    + apply Z.ltb_lt in Hpos.
      destruct Hgp as (gc & Htally & ->).
      destruct (tally_spec _ _ _ Htally) as (Hnd & Hcount & Hkeys & _);
        [constructor|].
      split; [|split].
      * intros label e. rewrite get_entries.
        destruct (Dict.get gc label) as [c|] eqn:Hc; [|discriminate].
        intros [= <-].
        assert (Hceq : c = label_count label (detections s)).
        { specialize (Hcount label). unfold count_in in Hcount.
          rewrite Hc in Hcount. simpl in Hcount. exact Hcount. }
        subst c. simpl.
        split; [lia|]. split; [reflexivity|]. split; reflexivity.
      * intros label. rewrite get_entries.
        specialize (Hkeys label). simpl in Hkeys.
        split.
        -- intros [e He].
           destruct (Dict.get gc label) as [c|] eqn:Hc; [|discriminate].
           split; [exact Hpos|].
           destruct Hkeys as [Hk _].
           destruct Hk as [[]|Hobs]; [|exact Hobs].
           destruct (In_dec string_dec label (Dict.keys gc)) as [Hin|Hnin];
             [exact Hin|].
           apply get_None_keys in Hnin. congruence.
        -- intros [_ Hobs].
           destruct Hkeys as [_ Hk]. specialize (Hk (or_intror Hobs)).
           destruct (Dict.get gc label) as [c|] eqn:Hc.
           ++ eexists. reflexivity.
           ++ apply get_None_keys in Hc. contradiction.
      * lia.
    + subst gp. apply Z.ltb_ge in Hpos.
      split; [|split].
      * intros label e. discriminate.
      * intros label. split; [intros [e He]; discriminate|lia].
      * reflexivity.
Qed.

Section SessionFacts.
Variable frame : Type.
Variable holistic_process : frame -> Results.
Variable draw_landmarks : frame -> list Landmark -> frame.
Variable putText : frame -> Prediction -> frame.
Variable model : option Model.
Variable imdecode : string -> except (option frame).
Variable imencode : frame -> except string.

Local Abbreviation analyze :=
  (analyze_frame frame holistic_process draw_landmarks putText model
     imdecode imencode).
Local Abbreviation handle_request :=
  (handle frame holistic_process draw_landmarks putText model
     imdecode imencode).
Local Abbreviation reach :=
  (reachable frame holistic_process draw_landmarks putText model
     imdecode imencode).
Local Abbreviation detect :=
  (detector_process_frame frame holistic_process draw_landmarks putText model).

Lemma record_detection_counted sessions sid prediction :
  all_counted sessions ->
  all_counted (record_detection sessions sid prediction).
Proof.
  intros Hall. unfold record_detection.
  destruct (Dict.get sessions sid) as [s|] eqn:Hget; [|exact Hall].
  apply Forall_set; [|exact Hall].
  intros k'. unfold counted. simpl.
  rewrite (all_counted_get _ _ _ Hall Hget), length_app. simpl. lia.
Qed.

Lemma start_session_counted sessions now now' :
  all_counted sessions -> all_counted (snd (start_session sessions now now')).
Proof.
  intros Hall. simpl. apply Forall_set; [|exact Hall].
  intros k'. reflexivity.
Qed.

Lemma stop_session_counted sessions data end_time :
  all_counted sessions ->
  all_counted (snd (stop_session sessions data end_time)).
Proof.
  intros Hall. unfold stop_session.
  destruct data as [[|kv d]|]; try exact Hall.
  destruct (negb (truthy _)); [exact Hall|].
  destruct (lookup _ _) as [[sid s]|]; [|exact Hall].
  destruct (score sid s end_time); [exact Hall|].
  now apply Forall_del.
Qed.

Lemma analyze_frame_counted sessions data :
  all_counted sessions -> all_counted (snd (analyze sessions data)).
Proof.
  intros Hall. unfold analyze_frame.
  destruct data as [[|kv d]|]; try exact Hall.
  destruct (negb (truthy _)); [exact Hall|].
  destruct (negb (truthy _)); [exact Hall|].
  destruct (lookup _ _) as [[sid s]|]; [|exact Hall].
  destruct (decode_frame _ _ _) as [e|[image|]]; try exact Hall.
  destruct (detect image) as [processed prediction].
  destruct (imencode processed); simpl; now apply record_detection_counted.
Qed.

Lemma reachable_counted sessions : reach sessions -> all_counted sessions.
Proof.
  induction 1 as [|sessions r _ IH]; [constructor|].
  destruct r; simpl.
  - now apply Forall_set.
  - now apply analyze_frame_counted.
  - now apply stop_session_counted.
Qed.


(** What a frame that was decoded and encoded does to the store. *)
Lemma analyze_frame_success sessions data processed_image prediction sessions' :
  analyze sessions data
    = ((200%Z, FrameResult processed_image prediction None), sessions') ->
  exists sid s,
    Dict.get sessions sid = Some s
    /\ sessions' = Dict.set sessions sid
                     (mkSession (start_time s) (frames_processed s + 1)
                                (detections s ++ [prediction])).
Proof.
  unfold analyze_frame.
  destruct data as [[|kv d]|]; try discriminate.
  destruct (negb (truthy _)); [discriminate|].
  destruct (negb (truthy _)); [discriminate|].
  destruct (lookup _ _) as [[sid s]|] eqn:Hl; [|discriminate].
  destruct (decode_frame _ _ _) as [e|[image|]]; try discriminate.
  destruct (detect image) as [processed pred].
  destruct (imencode processed); [discriminate|].
  intros [= _ <- <-].
  apply lookup_Some in Hl.
  exists sid, s. split; [exact Hl|].
  unfold record_detection. now rewrite Hl.
Qed.

(** C9. In every store the server can reach, each session's
    [frames_processed] equals the length of its [detections]; and a frame
    that is processed successfully appends exactly one entry, the frame's
    prediction (possibly null), and adds one to the counter. *)
Theorem frames_processed_eq_len_detections (sessions : Dict.t Session) :
  reach sessions ->
  (forall sid s, Dict.get sessions sid = Some s ->
     frames_processed s = Z.of_nat (length (detections s)))
  /\ (forall data processed_image prediction sessions',
        analyze sessions data
          = ((200%Z, FrameResult processed_image prediction None), sessions') ->
        exists sid s,
          Dict.get sessions sid = Some s
          /\ Dict.get sessions' sid
             = Some (mkSession (start_time s) (frames_processed s + 1)
                               (detections s ++ [prediction]))).
Proof.
  intros Hreach. split.
  - intros sid s Hget.
    exact (all_counted_get _ _ _ (reachable_counted _ Hreach) Hget).
  - intros data img prediction sessions' Hrun.
    destruct (analyze_frame_success _ _ _ _ _ Hrun) as (sid & s & Hget & ->).
    exists sid, s. split; [exact Hget|apply get_set_same].
Qed.

(** When [process_frame] yields a null prediction. *)
Lemma process_frame_null (image : frame) :
  pose_landmarks (holistic_process image) = None
  \/ model = None
  \/ (exists m pose e,
        model = Some m
        /\ _extract_landmarks (holistic_process image) = Some pose
        /\ classify m pose = inl e) ->
  snd (detect image) = None.
Proof.
  unfold detector_process_frame, process_frame.
  intros [Hpose|[Hmodel|(m & pose & e & Hmodel & Hextract & Hfail)]].
  - now rewrite Hpose.
  - rewrite Hmodel. now destruct (pose_landmarks (holistic_process image)).
  - rewrite Hmodel, Hextract, Hfail.
    now destruct (pose_landmarks (holistic_process image)).
Qed.

(** What a decoded frame does to the store, whether or not the annotated
    frame can be encoded afterwards. *)
Lemma analyze_frame_records sessions d image s :
  truthy (data_get d "session_id") = true ->
  truthy (data_get d "image_data") = true ->
  Dict.get sessions (py_str (data_get d "session_id")) = Some s ->
  decode_frame frame imdecode (data_get d "image_data") = inr (Some image) ->
  snd (analyze sessions (Some d))
  = record_detection sessions (py_str (data_get d "session_id"))
      (snd (detect image)).
Proof.
  intros Hsid Himg Hget Hdecode.
  pose proof (data_get_truthy_nonempty _ _ Hsid) as Hd.
  unfold analyze_frame.
  destruct d as [|kv d]; [congruence|].
  rewrite Hsid, Himg. simpl negb. cbv iota.
  rewrite (lookup_found _ _ _ Hget), Hdecode.
  destruct (detect image) as [processed prediction].
  now destruct (imencode processed).
Qed.

(** C10. A decoded frame with no detected person, with the model
    unavailable or with a failed classification leaves a null entry in the
    detections of its session; and for a session of a reachable store whose
    detections contain a null entry, [stop_session] answers with status 500
    and the text of the [TypeError] raised while tallying, and leaves the
    store as it was, the session still in it. *)
Theorem stop_session_faults_on_null_detection (sessions : Dict.t Session) :
  reach sessions ->
  (forall d image s,
      truthy (data_get d "session_id") = true ->
      truthy (data_get d "image_data") = true ->
      Dict.get sessions (py_str (data_get d "session_id")) = Some s ->
      decode_frame frame imdecode (data_get d "image_data")
        = inr (Some image) ->
      pose_landmarks (holistic_process image) = None
      \/ model = None
      \/ (exists m pose e,
            model = Some m
            /\ _extract_landmarks (holistic_process image) = Some pose
            /\ classify m pose = inl e) ->
      exists s',
        Dict.get (snd (analyze sessions (Some d)))
          (py_str (data_get d "session_id")) = Some s'
        /\ In None (detections s'))
  /\ (forall d v s end_time,
        data_get d "session_id" = v ->
        truthy v = true ->
        Dict.get sessions (py_str v) = Some s ->
        In None (detections s) ->
        stop_session sessions (Some d) end_time
        = ((500%Z, ErrorOnly "'NoneType' object is not subscriptable"),
           sessions)).
Proof.
  intros Hreach. split.
  - intros d image s Hsid Himg Hget Hdecode Hnull.
    rewrite (analyze_frame_records _ _ _ _ Hsid Himg Hget Hdecode).
    rewrite (process_frame_null _ Hnull).
    unfold record_detection. rewrite Hget, get_set_same.
    eexists. split; [reflexivity|].
    simpl. apply in_or_app. right. now left.
  - intros d v s end_time Hv Htruthy Hget Hnull.
    assert (Hd : d <> []) by (apply (data_get_truthy_nonempty d "session_id");
                              now rewrite Hv).
    assert (Hpos : (0 <? frames_processed s)%Z = true).
    { apply Z.ltb_lt.
      rewrite (all_counted_get _ _ _ (reachable_counted _ Hreach) Hget).
      destruct (detections s); [contradiction|simpl; lia]. }
    unfold stop_session.
    destruct d as [|kv d]; [congruence|].
    rewrite Hv, Htruthy. simpl negb. cbv iota.
    rewrite (lookup_found _ _ _ Hget).
    unfold score. rewrite Hpos, (tally_null _ Hnull). reflexivity.
Qed.


End SessionFacts.

(** ** The handlers on concrete requests *)

Lemma sample_started_reachable : Sample.reachable Sample.started.
Proof.
  exact (reachable_step _ _ _ _ _ _ _ Dict.empty (StartSession 7 7)
           (reachable_init _ _ _ _ _ _ _)).
Qed.

Lemma sample_one_empty_frame_reachable :
  Sample.reachable Sample.one_empty_frame.
Proof.
  exact (reachable_step _ _ _ _ _ _ _ Sample.started
           (AnalyzeFrame (Sample.frame_request "7" "N"))
           sample_started_reachable).
Qed.

Lemma sample_one_person_frame_reachable :
  Sample.reachable Sample.one_person_frame.
Proof.
  exact (reachable_step _ _ _ _ _ _ _ Sample.started
           (AnalyzeFrame (Sample.frame_request "7" "P"))
           sample_started_reachable).
Qed.

(** C1. A frame in which nobody is detected is answered with a null
    prediction, and that null is appended to the session's detections
    while [frames_processed] goes to 1; [stop_session] then fails on the
    session with status 500. *)
Theorem frame_without_person_appends_null :
  Sample.analyze_frame Sample.started (Sample.frame_request "7" "N")
  = ((200%Z, FrameResult "data:image/jpeg;base64,jpg" None None),
     [("7", mkSession 7 1 [None])])
  /\ stop_session [("7", mkSession 7 1 [None])] (Sample.stop_request "7") 9
     = ((500%Z, ErrorOnly "'NoneType' object is not subscriptable"),
        [("7", mkSession 7 1 [None])]).
Proof. split; reflexivity. Qed.

Lemma frames_processed_eq_len_detections_witness :
  Dict.get Sample.one_empty_frame "7" = Some (mkSession 7 1 [None])
  /\ frames_processed (mkSession 7 1 [None])
     = Z.of_nat (length (detections (mkSession 7 1 [None]))).
Proof.
  split; [reflexivity|].
  apply (proj1 (frames_processed_eq_len_detections _ _ _ _ _ _ _
                  Sample.one_empty_frame sample_one_empty_frame_reachable)
           "7").
  reflexivity.
Defined.

Lemma stop_session_faults_on_null_detection_witness :
  stop_session Sample.one_empty_frame (Sample.stop_request "7") 9
  = ((500%Z, ErrorOnly "'NoneType' object is not subscriptable"),
     Sample.one_empty_frame).
Proof.
  apply (proj2 (stop_session_faults_on_null_detection _ _ _ _ _ _ _
                  Sample.one_empty_frame sample_one_empty_frame_reachable)
           [("session_id", JStr "7")] (JStr "7") (mkSession 7 1 [None]) 9).
  - reflexivity.
  - reflexivity.
  - reflexivity.
  - simpl. left. reflexivity.
Defined.


Lemma overall_score_is_clamped_witness :
  exists r sessions',
    stop_session Sample.one_person_frame (Sample.stop_request "7") 9
    = ((200%Z, SessionReport r), sessions')
    /\ Report.frames_processed r = 1%Z
    /\ Report.overall_score r == 100.
Proof.
  eexists. eexists. split; [reflexivity|]. split; [reflexivity|].
  destruct (overall_score_is_clamped Sample.one_person_frame
              (Sample.stop_request "7") 9 _ _ eq_refl)
    as (_ & _ & _ & _ & Hfull & _).
  apply Hfull.
  - reflexivity.
  - vm_compute. reflexivity.
  - vm_compute. reflexivity.
Defined.



Lemma gesture_percentages_by_frames_processed_witness :
  exists r sessions' s,
    stop_session Sample.one_person_frame (Sample.stop_request "7") 9
    = ((200%Z, SessionReport r), sessions')
    /\ Dict.get Sample.one_person_frame (Report.session_id r) = Some s
    /\ Report.frames_processed r = frames_processed s
    /\ percentage_of (Report.gesture_percentages r) "Open Palm" == 100.
Proof.
  destruct (proj2 (gesture_percentages_by_frames_processed
                     Sample.one_person_frame (Sample.stop_request "7") 9)
              _ _ eq_refl) as (s & Hget & Hfp & _).
  eexists. eexists. exists s.
  split; [reflexivity|]. split; [exact Hget|]. split; [exact Hfp|].
  vm_compute. reflexivity.
Defined.

Lemma generate_feedback_lines_witness :
  str_contains
    (generate_feedback [("Open Palm", mkGesturePercentage "Open Palm" 1 100)])
    positive_open_palm = true.
Proof.
  apply (proj1 (generate_feedback_lines
                  [("Open Palm", mkGesturePercentage "Open Palm" 1 100)])).
  exists (mkGesturePercentage "Open Palm" 1 100).
  split; reflexivity.
Defined.

Lemma extract_landmarks_none_iff_no_pose_witness :
  process_frame Results Sample.holistic_process Sample.draw_landmarks
    Sample.putText (Some Sample.model) Sample.nobody
  = (Sample.nobody, None).
Proof.
  apply (proj1 (proj2 (extract_landmarks_none_iff_no_pose Sample.nobody)));
    reflexivity.
Defined.

(** The two end-to-end scenarios of the specification. *)
Example ten_open_palm_frames :
  exists r,
    stop_session Sample.ten_person_frames (Sample.stop_request "7") 9
    = ((200%Z, SessionReport r), Dict.empty)
    /\ Report.frames_processed r = 10%Z
    /\ percentage_of (Report.gesture_percentages r) "Open Palm" == 100
    /\ str_contains (Report.feedback r) positive_open_palm = true
    /\ Report.overall_score r == 100.
Proof.
  eexists. split; [vm_compute; reflexivity|].
  split; [reflexivity|]. split; [vm_compute; reflexivity|].
  split; vm_compute; reflexivity.
Qed.

Example no_frames :
  exists r,
    stop_session Sample.started (Sample.stop_request "7") 9
    = ((200%Z, SessionReport r), Dict.empty)
    /\ Report.frames_processed r = 0%Z
    /\ Report.gesture_percentages r = Dict.empty
    /\ Report.overall_score r = 0.
Proof.
  eexists. split; [reflexivity|].
  split; [reflexivity|]. split; reflexivity.
Qed.

Example feature_vector_with_face :
  option_map (@length Q) (_extract_landmarks Sample.person_with_face)
  = Some 2004%nat.
Proof. vm_compute. reflexivity. Qed.

Example session_id_of_timestamp :
  str_of_int (py_int (1712345678 + (9 # 10))) = "1712345678".
Proof. vm_compute. reflexivity. Qed.

Example data_url_payload :
  list_getitem (split_on "," "data:image/jpeg;base64,AAAA") 1 = ok "AAAA".
Proof. reflexivity. Qed.

(** A session id sent as a number finds the session stored under the
    equal string. *)
Example numeric_session_id :
  lookup Sample.started (resolve Sample.started (JInt 7))
  = Some ("7", mkSession 7 0 []).
Proof. reflexivity. Qed.

(** ** More on the detector *)

(** X1. Whatever the number of landmarks MediaPipe returns, the vector has
    four entries per pose landmark and four per face landmark, 468 face
    landmarks being assumed when the face is absent; so it has the
    [num_features] entries the model was trained on exactly when pose and
    face landmarks number 501 together. *)
Theorem extract_landmarks_length (results : Results) (pose : list Landmark) :
  pose_landmarks results = Some pose ->
  let faces := match face_landmarks results with
               | Some face => length face
               | None => 468%nat
               end in
  exists v,
    _extract_landmarks results = Some v
    /\ length v = (4 * (length pose + faces))%nat
    /\ (length v = num_features <-> (length pose + faces = 501)%nat).
Proof.
  intros Hpose faces. unfold _extract_landmarks. rewrite Hpose. cbv zeta.
  eexists. split; [reflexivity|].
  assert (Hlen : length (concat (map pose_row pose ++
                           match face_landmarks results with
                           | Some landmarks => map face_row landmarks
                           | None => repeat [0; 0; 0; 0] 468
                           end))
                 = (4 * (length pose + faces))%nat).
  { rewrite concat_app, length_app,
      (concat_rows_length _ _ pose_row_length).
    subst faces. destruct (face_landmarks results) as [face|].
    - rewrite (concat_rows_length _ _ face_row_length). lia.
    - rewrite concat_repeat_zero_rows, repeat_length. lia. }
  split; [exact Hlen|].
  rewrite Hlen. unfold num_features. lia.
Qed.

Lemma extract_landmarks_length_witness :
  exists v,
    _extract_landmarks Sample.person_with_face = Some v
    /\ length v = num_features.
Proof.
  destruct (extract_landmarks_length Sample.person_with_face
              (repeat Sample.landmark 33) eq_refl) as (v & Hv & _ & Hiff).
  exists v. split; [exact Hv|].
  apply Hiff. reflexivity.
Defined.

Lemma list_index_spec (l : list string) (a : string) (i : nat) :
  list_index l a = ok i <->
  nth_error l i = Some a /\ forall j, (j < i)%nat -> nth_error l j <> Some a.
Proof.
  revert i. induction l as [|b l IH]; intros i; simpl.
  - split; [discriminate|]. intros [H _]. destruct i; discriminate.
  - destruct (String.eqb_spec b a) as [->|Hne].
    + split.
      * intros [= <-]. split; [reflexivity|]. intros j Hj. lia.
      * intros [Hi Hfirst]. destruct i as [|i]; [reflexivity|].
        exfalso. apply (Hfirst 0%nat); [lia|reflexivity].
    + destruct (list_index l a) as [e|k] eqn:Hk; simpl.
      * split; [discriminate|]. intros [Hi Hfirst].
        destruct i as [|i]; simpl in Hi; [congruence|].
        assert (Hok : @inl exn nat e = ok i).
        { apply IH. split; [exact Hi|].
          intros j Hj. apply (Hfirst (S j)). lia. }
        discriminate Hok.
      * split.
        -- intros [= <-]. destruct (proj1 (IH k) eq_refl) as [Hi Hfirst].
           split; [exact Hi|].
           intros [|j] Hj; simpl; [congruence|]. apply Hfirst. lia.
        -- intros [Hi Hfirst]. destruct i as [|i]; simpl in Hi; [congruence|].
           assert (Hok : ok k = ok i).
           { apply IH. split; [exact Hi|].
             intros j Hj. apply (Hfirst (S j)). lia. }
           injection Hok as ->. reflexivity.
Qed.

(** X2. The classification of a feature vector succeeds exactly when the
    model predicts a label and a distribution, the label occurs in the
    model's [classes_], and the distribution has an entry at the first
    position of that label; the prediction is then that label with that
    entry as confidence: the confidence is found by label, not taken as the
    largest probability. *)
Theorem classify_confidence_by_label (m : Model) (pose : list Q)
    (p : Prediction) :
  classify m pose = inr p <->
  exists proba i,
    predict m pose = inr (class p)
    /\ predict_proba m pose = inr proba
    /\ nth_error (classes_ m) i = Some (class p)
    /\ (forall j, (j < i)%nat -> nth_error (classes_ m) j <> Some (class p))
    /\ nth_error proba i = Some (confidence p).
Proof.
  unfold classify. split.
  - destruct (predict m pose) as [e|label]; [discriminate|].
    destruct (predict_proba m pose) as [e|proba]; [discriminate|].
    simpl. destruct (list_index (classes_ m) label) as [e|i] eqn:Hi;
      [discriminate|].
    simpl. unfold list_getitem.
    destruct (nth_error proba i) as [c|] eqn:Hc; [|discriminate].
    simpl. intros [= <-]. simpl.
    apply list_index_spec in Hi. destruct Hi as [Hi Hfirst].
    exists proba, i. repeat split; assumption.
  - intros (proba & i & Hpredict & Hproba & Hi & Hfirst & Hc).
    rewrite Hpredict, Hproba. simpl.
    rewrite (proj2 (list_index_spec _ _ _) (conj Hi Hfirst)). simpl.
    unfold list_getitem. rewrite Hc. simpl. now destruct p.
Qed.

(** X3. [process_frame] returns a prediction exactly when a pose was
    found, a model is loaded and the classification of the extracted
    vector succeeded; the returned frame carries the landmarks whenever a
    pose was found, and the label text only with a prediction. *)
Theorem process_frame_outcome (frame : Type)
    (holistic_process : frame -> Results)
    (draw_landmarks : frame -> list Landmark -> frame)
    (putText : frame -> Prediction -> frame)
    (model : option Model) (image : frame) :
  let out := process_frame frame holistic_process draw_landmarks putText
               model image in
  (forall p,
      snd out = Some p <->
      exists m landmarks pose,
        model = Some m
        /\ pose_landmarks (holistic_process image) = Some landmarks
        /\ _extract_landmarks (holistic_process image) = Some pose
        /\ classify m pose = inr p)
  /\ (forall landmarks,
        pose_landmarks (holistic_process image) = Some landmarks ->
        fst out = match snd out with
                  | Some p => putText (draw_landmarks image landmarks) p
                  | None => draw_landmarks image landmarks
                  end).
Proof.
  intros out. subst out. unfold process_frame.
  destruct (pose_landmarks (holistic_process image)) as [landmarks|] eqn:Hpose.
  - assert (Hex : exists pose,
              _extract_landmarks (holistic_process image) = Some pose).
    { unfold _extract_landmarks. rewrite Hpose. eexists. reflexivity. }
    destruct Hex as [pose Hextract]. rewrite Hextract.
    destruct model as [m|].
    + destruct (classify m pose) as [e|q] eqn:Hclassify; simpl.
      * split.
        -- intros p. split; [discriminate|].
           intros (m' & l' & pose' & [= <-] & _ & [= <-] & H). congruence.
        -- now intros ? [= <-].
      * split.
        -- intros p. split.
           ++ intros [= <-]. exists m, landmarks, pose. now repeat split.
           ++ intros (m' & l' & pose' & [= <-] & _ & [= <-] & H). congruence.
        -- now intros ? [= <-].
    + simpl. split.
      * intros p. split; [discriminate|].
        intros (m' & _ & _ & H & _). discriminate.
      * now intros ? [= <-].
  - simpl. split.
    + intros p. split; [discriminate|].
      intros (_ & l' & _ & _ & H & _). discriminate.
    + discriminate.
Qed.

(** ** More on dictionaries and session ids *)

Lemma keys_set_existing {V : Type} (d : Dict.t V) k v v0 :
  Dict.get d k = Some v0 -> Dict.keys (Dict.set d k v) = Dict.keys d.
Proof.
  unfold Dict.keys.
  induction d as [|[k' v'] d IH]; simpl; [discriminate|].
  destruct (String.eqb k' k) eqn:E; simpl; [reflexivity|].
  intros H. now rewrite IH.
Qed.

Lemma get_del_other {V : Type} (d : Dict.t V) k k' :
  k <> k' -> Dict.get (Dict.del d k) k' = Dict.get d k'.
Proof.
  intros Hne. induction d as [|[k0 v0] d IH]; simpl; [reflexivity|].
  destruct (String.eqb_spec k0 k) as [->|Hk]; simpl.
  - destruct (String.eqb_spec k k'); [contradiction|reflexivity].
  - now rewrite IH.
Qed.

Lemma keys_del_In {V : Type} (d : Dict.t V) k l :
  In l (Dict.keys (Dict.del d k)) -> In l (Dict.keys d).
Proof.
  unfold Dict.keys. induction d as [|[k0 v0] d IH]; simpl; [tauto|].
  destruct (String.eqb k0 k); simpl; [now right|].
  intros [H|H]; [now left|right; now apply IH].
Qed.

Lemma keys_del_NoDup {V : Type} (d : Dict.t V) k :
  NoDup (Dict.keys d) -> NoDup (Dict.keys (Dict.del d k)).
Proof.
  induction d as [|[k0 v0] d IH]; simpl; [trivial|].
  intros Hnd. inversion Hnd as [|? ? Hnotin Hnd']; subst.
  destruct (String.eqb k0 k); simpl; [exact Hnd'|].
  constructor; [|now apply IH].
  intros Hin. apply Hnotin. exact (keys_del_In _ _ _ Hin).
Qed.

Lemma get_del_same {V : Type} (d : Dict.t V) k :
  NoDup (Dict.keys d) -> Dict.get (Dict.del d k) k = None.
Proof.
  induction d as [|[k0 v0] d IH]; simpl; [reflexivity|].
  intros Hnd. inversion Hnd as [|? ? Hnotin Hnd']; subst.
  destruct (String.eqb_spec k0 k) as [->|Hk]; simpl.
  - now apply get_None_keys.
  - destruct (String.eqb_spec k0 k); [contradiction|]. now apply IH.
Qed.

(** The key under which a request's session id is found is the id as a
    string. *)
Lemma lookup_resolve_key (sessions : Dict.t Session) v sid s :
  lookup sessions (resolve sessions v) = Some (sid, s) ->
  sid = py_str v /\ Dict.get sessions sid = Some s.
Proof.
  intros Hl. split; [|exact (lookup_Some _ _ _ _ Hl)].
  unfold resolve in Hl.
  destruct (matching_sessions sessions v) as [|k rest] eqn:Hm.
  - destruct v; simpl in Hl; try discriminate.
    destruct (Dict.get sessions s0); [|discriminate].
    now injection Hl as <- _.
  - assert (Hin : In k (matching_sessions sessions v))
      by (rewrite Hm; now left).
    unfold matching_sessions in Hin. apply filter_In in Hin.
    destruct Hin as [_ Heq]. apply String.eqb_eq in Heq. subst k.
    simpl in Hl. destruct (Dict.get sessions (py_str v)); [|discriminate].
    now injection Hl as <- _.
Qed.

Lemma to_int_not_nil (n : Z) :
  Z.to_int n <> Decimal.Pos Decimal.Nil /\ Z.to_int n <> Decimal.Neg Decimal.Nil.
Proof.
  split; intros H; pose proof (f_equal Z.of_int H) as H';
    rewrite DecimalZ.of_to in H'; subst n; vm_compute in H; discriminate H.
Qed.

Lemma str_of_int_inj (a b : Z) : str_of_int a = str_of_int b -> a = b.
Proof.
  unfold str_of_int. intros H.
  apply (f_equal NilZero.int_of_string) in H.
  destruct (to_int_not_nil a) as [Ha1 Ha2].
  destruct (to_int_not_nil b) as [Hb1 Hb2].
  rewrite !NilZero.isi in H by assumption.
  injection H as H. apply (f_equal Z.of_int) in H.
  now rewrite !DecimalZ.of_to in H.
Qed.

Lemma str_of_int_nonempty (n : Z) : str_of_int n <> "".
Proof.
  unfold str_of_int. intros H.
  apply (f_equal NilZero.int_of_string) in H.
  destruct (to_int_not_nil n) as [H1 H2].
  rewrite NilZero.isi in H by assumption. discriminate.
Qed.

(** ** More on scoring *)

Lemma py_clamp_range (e : Q) :
  0 <= py_min 100 (py_max 0 e) /\ py_min 100 (py_max 0 e) <= 100.
Proof.
  unfold py_min, py_max.
  destruct (Qlt_bool 0 e) eqn:E1.
  - apply Qlt_bool_iff in E1.
    destruct (Qlt_bool e 100) eqn:E2.
    + apply Qlt_bool_iff in E2. split; lra.
    + split; lra.
  - destruct (Qlt_bool 0 100) eqn:E2; split; lra.
Qed.

(** X4. Whatever the session holds, the score of a report lies between 0
    and 100. *)
Theorem overall_score_in_range (sessions : Dict.t Session)
    (data : option (Dict.t jval)) (end_time : Q) (r : Report.t)
    (sessions' : Dict.t Session) :
  stop_session sessions data end_time = ((200%Z, SessionReport r), sessions') ->
  0 <= Report.overall_score r /\ Report.overall_score r <= 100.
Proof.
  intros Hstop.
  destruct (stop_session_report _ _ _ _ _ Hstop) as (sid & s & _ & Hscore & _).
  destruct (score_inv _ _ _ _ Hscore) as (gp & _ & ->).
  cbn [Report.overall_score].
  destruct (0 <? frames_processed s)%Z; [apply py_clamp_range|split; lra].
Qed.

Lemma overall_score_in_range_witness :
  exists r sessions',
    stop_session Sample.one_person_frame (Sample.stop_request "7") 9
    = ((200%Z, SessionReport r), sessions')
    /\ 0 <= Report.overall_score r /\ Report.overall_score r <= 100.
Proof.
  eexists. eexists. split; [reflexivity|].
  exact (overall_score_in_range Sample.one_person_frame
           (Sample.stop_request "7") 9 _ _ eq_refl).
Defined.

Lemma tally_total detections :
  ~ In None detections ->
  forall gesture_counts, exists result,
    tally detections gesture_counts = inr result.
Proof.
  induction detections as [|d rest IH]; intros Hnone gc.
  - eexists. reflexivity.
  - destruct d as [p|]; [|exfalso; apply Hnone; now left].
    rewrite tally_step. apply IH. intros H. apply Hnone. now right.
Qed.

Lemma null_detection_dec (detections : list (option Prediction)) :
  In None detections \/ ~ In None detections.
Proof.
  induction detections as [|[p|] rest [IH|IH]].
  - right. intros [].
  - left. now right.
  - right. intros [H|H]; [discriminate|contradiction].
  - left. now left.
  - left. now left.
Qed.

(** [score] fails exactly on a session with processed frames and a null
    detection, and then with the [TypeError] of the tallying loop. *)
Lemma score_fails_iff sid s end_time :
  (exists e, score sid s end_time = inl e) <->
  (0 < frames_processed s)%Z /\ In None (detections s).
Proof.
  split.
  - intros [e He]. unfold score in He.
    destruct (0 <? frames_processed s)%Z eqn:Hpos; [|discriminate].
    apply Z.ltb_lt in Hpos. split; [exact Hpos|].
    destruct (null_detection_dec (detections s)) as [Hin|Hnin]; [exact Hin|].
    exfalso.
    destruct (tally_total _ Hnin Dict.empty) as [gc Hgc].
    rewrite Hgc in He. simpl bind at 1 in He.
    assert (Hn : frames_processed s <> 0%Z) by lia.
    destruct (percentages_total _ Hn gc Dict.empty) as [gp Hgp].
    rewrite Hgp in He. discriminate.
  - intros [Hpos Hnull]. exists null_fault. unfold score.
    apply Z.ltb_lt in Hpos. now rewrite Hpos, (tally_null _ Hnull).
Qed.

Lemma score_fault sid s end_time e :
  score sid s end_time = inl e -> e = null_fault.
Proof.
  intros He.
  destruct (proj1 (score_fails_iff sid s end_time) (ex_intro _ e He))
    as [Hpos Hnull].
  unfold score in He. apply Z.ltb_lt in Hpos.
  rewrite Hpos, (tally_null _ Hnull) in He. now injection He as <-.
Qed.

Lemma label_count_cons_none rest label :
  label_count label (None :: rest) = label_count label rest.
Proof. reflexivity. Qed.

Lemma label_count_nonneg label detections :
  (0 <= label_count label detections)%Z.
Proof. unfold label_count. lia. Qed.

Lemma label_count_le_length label detections :
  (label_count label detections <= Z.of_nat (length detections))%Z.
Proof.
  unfold label_count. apply inj_le, filter_length_le.
Qed.

Lemma label_count_observed label detections p :
  In (Some p) detections -> class p = label ->
  (1 <= label_count label detections)%Z.
Proof.
  intros Hin Hl. unfold label_count.
  assert (H : In (Some p)
                (filter (fun d => match d with
                                  | Some p => String.eqb (class p) label
                                  | None => false
                                  end) detections)).
  { apply filter_In. split; [exact Hin|]. now apply String.eqb_eq. }
  destruct (filter _ detections); [contradiction|simpl; lia].
Qed.

(** Each detection counts for at most one of the five bucket labels, and
    for exactly one when its class is a trained class. *)
Lemma bucket_counts_le_length detections :
  (allowed_count detections + disallowed_count detections
   <= Z.of_nat (length detections))%Z.
Proof.
  unfold allowed_count, disallowed_count.
  induction detections as [|d rest IH]; [vm_compute; discriminate|].
  destruct d as [p|].
  - rewrite !label_count_cons_some.
    change (length (Some p :: rest)) with (S (length rest)).
    repeat match goal with
           | |- context [String.eqb (class p) ?l] =>
               destruct (String.eqb_spec (class p) l)
           end; try congruence; lia.
  - rewrite !label_count_cons_none.
    change (length (None :: rest)) with (S (length rest)). lia.
Qed.

Lemma bucket_counts_trained detections :
  (forall d, In d detections ->
     exists p, d = Some p /\ In (class p) gesture_classes) ->
  (allowed_count detections + disallowed_count detections
   = Z.of_nat (length detections))%Z.
Proof.
  unfold allowed_count, disallowed_count.
  induction detections as [|d rest IH]; intros Hall; [reflexivity|].
  destruct (Hall d (or_introl eq_refl)) as (p & -> & Hclass).
  rewrite !label_count_cons_some.
  change (length (Some p :: rest)) with (S (length rest)).
  assert (IH' := IH (fun d Hd => Hall d (or_intror Hd))).
  simpl in Hclass.
  destruct Hclass as [<-|[<-|[<-|[<-|[<-|[]]]]]];
    repeat match goal with
           | |- context [String.eqb ?a ?b] =>
               let r := eval vm_compute in (String.eqb a b) in
               change (String.eqb a b) with r
           end;
    lia.
Qed.

(** Which lines a feedback text contains, in terms of the five tests. *)
Lemma feedback_contains (gp : Dict.t GesturePercentage) :
  let text := generate_feedback gp in
  str_contains text positive_open_palm = exceeds gp "Open Palm" 20
  /\ str_contains text positive_thumbs_up = exceeds gp "Thumbs Up" 10
  /\ str_contains text positive_pointing = exceeds gp "Pointing" 10
  /\ str_contains text corrective_crossed_arms = exceeds gp "Crossed Arms" 15
  /\ str_contains text corrective_victorious = exceeds gp "Victorious" 15.
Proof.
  unfold generate_feedback. cbv zeta.
  destruct (exceeds gp "Open Palm" 20), (exceeds gp "Thumbs Up" 10),
           (exceeds gp "Pointing" 10), (exceeds gp "Crossed Arms" 15),
           (exceeds gp "Victorious" 15);
    vm_compute; repeat split.
Qed.

(** ** More on the session store *)

(** X5. [start_session] answers with the decimal form of the truncated
    time and stores a fresh session (no frames, no detections) under it,
    replacing whatever was stored under that id; every other key, and in
    particular the session of any other second, is left as it was. *)
Theorem start_session_registers (sessions : Dict.t Session) (now now' : Q) :
  let sid := str_of_int (py_int now) in
  let out := start_session sessions now now' in
  fst out = (200%Z, Started sid "Session started successfully")
  /\ Dict.get (snd out) sid = Some (mkSession now' 0 [])
  /\ (forall k, k <> sid -> Dict.get (snd out) k = Dict.get sessions k)
  /\ (forall n, n <> py_int now ->
        Dict.get (snd out) (str_of_int n) = Dict.get sessions (str_of_int n)).
Proof.
  intros sid out. subst out. unfold start_session. cbn [fst snd].
  split; [reflexivity|]. split; [apply get_set_same|].
  assert (Hother : forall k, k <> sid ->
            Dict.get (Dict.set sessions sid (mkSession now' 0 [])) k
            = Dict.get sessions k).
  { intros k Hk. apply get_set_other. congruence. }
  split; [exact Hother|].
  intros n Hn. apply Hother. subst sid. intros H.
  apply Hn. now apply str_of_int_inj.
Qed.

Section MoreSessionFacts.
Variable frame : Type.
Variable holistic_process : frame -> Results.
Variable draw_landmarks : frame -> list Landmark -> frame.
Variable putText : frame -> Prediction -> frame.
Variable model : option Model.
Variable imdecode : string -> except (option frame).
Variable imencode : frame -> except string.

Local Abbreviation analyze :=
  (analyze_frame frame holistic_process draw_landmarks putText model
     imdecode imencode).
Local Abbreviation reach :=
  (reachable frame holistic_process draw_landmarks putText model
     imdecode imencode).
Local Abbreviation detect :=
  (detector_process_frame frame holistic_process draw_landmarks putText model).

(** The store after [analyze_frame]: unchanged, or the addressed session
    with the frame's prediction appended. *)
Lemma analyze_frame_store sessions data :
  snd (analyze sessions data) = sessions
  \/ exists d s image,
       data = Some d
       /\ truthy (data_get d "session_id") = true
       /\ Dict.get sessions (py_str (data_get d "session_id")) = Some s
       /\ snd (analyze sessions data)
          = Dict.set sessions (py_str (data_get d "session_id"))
              (mkSession (start_time s) (frames_processed s + 1)
                 (detections s ++ [snd (detect image)])).
Proof.
  unfold analyze_frame.
  destruct data as [[|kv d]|]; try (now left).
  destruct (truthy (data_get (kv :: d) "session_id")) eqn:Hsid;
    [|now left].
  simpl negb. cbv iota.
  destruct (negb (truthy _)); [now left|].
  destruct (lookup _ _) as [[sid s]|] eqn:Hl; [|now left].
  apply lookup_resolve_key in Hl. destruct Hl as [-> Hget].
  destruct (decode_frame _ _ _) as [e|[image|]]; try (now left).
  right. exists (kv :: d), s, image.
  split; [reflexivity|]. split; [exact Hsid|]. split; [exact Hget|].
  destruct (detect image) as [processed prediction].
  assert (Hrec : record_detection sessions
                   (py_str (data_get (kv :: d) "session_id")) prediction
                 = Dict.set sessions (py_str (data_get (kv :: d) "session_id"))
                     (mkSession (start_time s) (frames_processed s + 1)
                        (detections s ++ [prediction])))
    by (unfold record_detection; now rewrite Hget).
  destruct (imencode processed); simpl; exact Hrec.
Qed.

Lemma reachable_keys_NoDup sessions :
  reach sessions -> NoDup (Dict.keys sessions).
Proof.
  induction 1 as [|sessions r _ IH]; [constructor|].
  destruct r as [now now'|data|data end_time]; simpl.
  - now apply keys_set_NoDup.
  - destruct (analyze_frame_store sessions data)
      as [->|(d & s & image & _ & _ & Hget & ->)]; [exact IH|].
    now rewrite (keys_set_existing _ _ _ _ Hget).
  - unfold stop_session.
    destruct data as [[|kv d]|]; try exact IH.
    destruct (negb (truthy _)); [exact IH|].
    destruct (lookup _ _) as [[sid s]|]; [|exact IH].
    destruct (score sid s end_time); [exact IH|].
    now apply keys_del_NoDup.
Qed.

(** X6. A session is finalized once: after [stop_session] has returned
    its report, the session is gone from the store while every other
    session is as before, and the same request sent again gets the
    not-found answer. *)
Theorem stop_session_finalizes_once (sessions : Dict.t Session)
    (d : Dict.t jval) (end_time : Q) (r : Report.t)
    (sessions' : Dict.t Session) :
  reach sessions ->
  stop_session sessions (Some d) end_time
    = ((200%Z, SessionReport r), sessions') ->
  Report.session_id r = py_str (data_get d "session_id")
  /\ Dict.get sessions' (Report.session_id r) = None
  /\ (forall k, k <> Report.session_id r ->
        Dict.get sessions' k = Dict.get sessions k)
  /\ (forall end_time',
        stop_session sessions' (Some d) end_time'
        = ((200%Z,
            NotFoundReport
              ("Session ID not found: " ++ py_str (data_get d "session_id"))
              (data_get d "session_id") 0 0 Dict.empty
              "No session data available" 0),
           sessions')).
Proof.
  intros Hreach Hstop.
  pose proof (reachable_keys_NoDup _ Hreach) as Hnd.
  unfold stop_session in Hstop.
  destruct d as [|kv d]; [discriminate|].
  destruct (truthy (data_get (kv :: d) "session_id")) eqn:Hsid;
    [|discriminate].
  simpl negb in Hstop. cbv iota in Hstop.
  destruct (lookup _ _) as [[sid s]|] eqn:Hl; [|discriminate].
  apply lookup_resolve_key in Hl. destruct Hl as [-> Hget].
  destruct (score _ s end_time) as [e|r'] eqn:Hscore; [discriminate|].
  injection Hstop as <- <-.
  destruct (score_inv _ _ _ _ Hscore) as (gp & _ & ->).
  cbn [Report.session_id].
  assert (Hgone : Dict.get (Dict.del sessions
                              (py_str (data_get (kv :: d) "session_id")))
                    (py_str (data_get (kv :: d) "session_id")) = None)
    by now apply get_del_same.
  split; [reflexivity|]. split; [exact Hgone|].
  split; [intros k Hk; apply get_del_other; congruence|].
  intros end_time'. unfold stop_session.
  rewrite Hsid. simpl negb. cbv iota.
  destruct (lookup_absent _ _ Hgone) as [Hres Hlook].
  now rewrite Hlook, Hres.
Qed.

(** X7. [analyze_frame] answers with status 200 or 400, never with a hard
    error; with status 400 the body is a bare error text and the store is
    unchanged. *)
Theorem analyze_frame_status (sessions : Dict.t Session)
    (data : option (Dict.t jval)) :
  let out := analyze sessions data in
  fst (fst out) = 200%Z
  \/ (fst (fst out) = 400%Z
      /\ snd out = sessions
      /\ exists msg, snd (fst out) = ErrorOnly msg).
Proof.
  intros out. subst out. unfold analyze_frame.
  destruct data as [[|kv d]|];
    try (right; split; [reflexivity|split; [reflexivity|eexists; reflexivity]]).
  destruct (negb (truthy _));
    [right; split; [reflexivity|split; [reflexivity|eexists; reflexivity]]|].
  destruct (negb (truthy _));
    [right; split; [reflexivity|split; [reflexivity|eexists; reflexivity]]|].
  destruct (lookup _ _) as [[sid s]|]; [|now left].
  destruct (decode_frame _ _ _) as [e|[image|]];
    [now left| |
     right; split; [reflexivity|split; [reflexivity|eexists; reflexivity]]].
  destruct (detect image) as [processed prediction].
  destruct (imencode processed); now left.
Qed.

(** X8. [analyze_frame] only ever appends: it keeps the keys of the store
    and their order, leaves every session other than the addressed one
    untouched, and the addressed session keeps its start time and its
    detections, with at most one new detection at the end and the counter
    moved along with it. *)
Theorem analyze_frame_append_only (sessions : Dict.t Session)
    (data : option (Dict.t jval)) :
  let sessions' := snd (analyze sessions data) in
  Dict.keys sessions' = Dict.keys sessions
  /\ (forall sid s,
        Dict.get sessions sid = Some s ->
        exists s',
          Dict.get sessions' sid = Some s'
          /\ start_time s' = start_time s
          /\ (s' = s
              \/ exists prediction,
                   detections s' = (detections s ++ [prediction])%list
                   /\ frames_processed s' = (frames_processed s + 1)%Z))
  /\ (forall d sid,
        data = Some d ->
        sid <> py_str (data_get d "session_id") ->
        Dict.get sessions' sid = Dict.get sessions sid).
Proof.
  intros sessions'. subst sessions'.
  destruct (analyze_frame_store sessions data)
    as [->|(d & s0 & image & -> & _ & Hget & ->)].
  - split; [reflexivity|]. split; [|reflexivity].
    intros sid s Hs. exists s. split; [exact Hs|]. split; [reflexivity|].
    now left.
  - split; [exact (keys_set_existing _ _ _ _ Hget)|]. split.
    + intros sid s Hs.
      destruct (string_dec (py_str (data_get d "session_id")) sid)
        as [<-|Hne].
      * rewrite get_set_same. eexists. split; [reflexivity|].
        assert (s0 = s) by congruence. subst s0.
        split; [reflexivity|]. right. eexists. split; reflexivity.
      * rewrite (get_set_other _ _ _ _ Hne).
        exists s. split; [exact Hs|]. split; [reflexivity|]. now left.
    + intros d' sid [= <-] Hne. apply get_set_other. congruence.
Qed.

(** X9. When the annotated frame cannot be encoded, the client gets the
    error answer with a null prediction, yet the frame has already been
    recorded: its prediction is in the detections and the counter has
    moved. *)
Theorem encode_failure_still_counts (sessions : Dict.t Session)
    (d : Dict.t jval) (s : Session) (image : frame) (e : exn) :
  truthy (data_get d "session_id") = true ->
  truthy (data_get d "image_data") = true ->
  Dict.get sessions (py_str (data_get d "session_id")) = Some s ->
  decode_frame frame imdecode (data_get d "image_data") = inr (Some image) ->
  imencode (fst (detect image)) = inl e ->
  analyze sessions (Some d)
  = ((200%Z,
      FrameResult "" None (Some ("Error processing frame: " ++ exn_str e))),
     Dict.set sessions (py_str (data_get d "session_id"))
       (mkSession (start_time s) (frames_processed s + 1)
          (detections s ++ [snd (detect image)]))).
Proof.
  intros Hsid Himg Hget Hdecode Hencode.
  pose proof (data_get_truthy_nonempty _ _ Hsid) as Hd.
  unfold analyze_frame.
  destruct d as [|kv d]; [congruence|].
  rewrite Hsid, Himg. simpl negb. cbv iota.
  rewrite (lookup_found _ _ _ Hget), Hdecode.
  destruct (detect image) as [processed prediction]. simpl in Hencode.
  rewrite Hencode. unfold record_detection. now rewrite Hget.
Qed.


Lemma inject_Z_ratio_bounds (a n : Z) :
  (0 < n)%Z -> (- n <= a)%Z -> (a <= n)%Z ->
  -(1) <= inject_Z a / inject_Z n /\ inject_Z a / inject_Z n <= 1.
Proof.
  intros Hn Hlo Hhi.
  assert (Hq : 0 < inject_Z n) by (unfold Qlt; simpl; lia).
  assert (Hlo' : - inject_Z n <= inject_Z a) by (unfold Qle; simpl; lia).
  assert (Hhi' : inject_Z a <= inject_Z n) by (unfold Qle; simpl; lia).
  split.
  - apply Qle_shift_div_l; [exact Hq|]. lra.
  - apply Qle_shift_div_r; [exact Hq|]. lra.
Qed.

Lemma total_count_entries total_frames (items : Dict.t Z) :
  total_count (map (entry_of total_frames) items) = sum_counts items.
Proof.
  unfold total_count, sum_counts, Dict.values.
  induction items as [|[g c] rest IH]; simpl; [reflexivity|].
  now rewrite IH.
Qed.

(** The entry of a label in a bucket of the report of a session whose
    counter equals the number of its detections. *)
Lemma bucket_entry_counts sid s end_time r label :
  counted s ->
  score sid s end_time = inr r ->
  let entry := bucket_entry (Report.gesture_percentages r) label in
  fst entry = label
  /\ gesture_name (snd entry) = label
  /\ gesture_count (snd entry) = label_count label (detections s).
Proof.
  intros Hcounted Hscore. unfold counted in Hcounted.
  destruct (score_inv _ _ _ _ Hscore) as (gp & Hgp & ->).
  cbn [Report.gesture_percentages]. unfold bucket_entry. cbn [fst snd].
  split; [reflexivity|].
  destruct (0 <? frames_processed s)%Z eqn:Hpos.
  - destruct Hgp as (gc & Htally & ->).
    destruct (tally_spec _ _ _ Htally) as (_ & Hcount & _); [constructor|].
    specialize (Hcount label). unfold count_in in Hcount. simpl in Hcount.
    rewrite get_entries.
    destruct (Dict.get gc label) as [c|]; simpl; split; congruence.
  - subst gp. apply Z.ltb_ge in Hpos.
    assert (Hnil : detections s = [])
      by (destruct (detections s); [reflexivity|simpl in Hcounted; lia]).
    rewrite Hnil. simpl. split; reflexivity.
Qed.

(** X11. In the report of a session of a reachable store the two buckets
    hold exactly their fixed labels, in order; each entry is named by its
    label and counts the detections of that label (0 for a label that was
    never observed); and the five counts together are at most
    [frames_processed]. *)
Theorem bucket_counts_in_report (sessions : Dict.t Session)
    (data : option (Dict.t jval)) (end_time : Q) (r : Report.t)
    (sessions' : Dict.t Session) (s : Session) :
  reach sessions ->
  stop_session sessions data end_time = ((200%Z, SessionReport r), sessions') ->
  Dict.get sessions (Report.session_id r) = Some s ->
  Dict.keys (Report.allowed_gestures r)
    = ["Open Palm"; "Thumbs Up"; "Pointing"]
  /\ Dict.keys (Report.disallowed_gestures r)
     = ["Crossed Arms"; "Victorious"]
  /\ (forall label e,
        In (label, e)
           (Report.allowed_gestures r ++ Report.disallowed_gestures r) ->
        gesture_name e = label
        /\ gesture_count e = label_count label (detections s))
  /\ (total_count (Report.allowed_gestures r)
      + total_count (Report.disallowed_gestures r)
      <= Report.frames_processed r)%Z.
Proof.
  intros Hreach Hstop Hget.
  destruct (stop_session_report _ _ _ _ _ Hstop)
    as (sid & s0 & Hget0 & Hscore & _).
  assert (Hsid : Report.session_id r = sid).
  { destruct (score_inv _ _ _ _ Hscore) as (gp & _ & ->). reflexivity. }
  rewrite Hsid in Hget. assert (s0 = s) by congruence. subst s0.
  pose proof (all_counted_get _ _ _
                (reachable_counted _ _ _ _ _ _ _ _ Hreach) Hget) as Hcounted.
  pose proof (fun label => bucket_entry_counts _ _ _ _ label Hcounted Hscore)
    as Hentry.
  pose proof (bucket_counts_le_length (detections s)) as Hle.
  unfold allowed_count, disallowed_count in Hle.
  unfold counted in Hcounted.
  destruct (score_inv _ _ _ _ Hscore) as (gp & _ & ->).
  cbn [Report.gesture_percentages Report.allowed_gestures
       Report.disallowed_gestures Report.frames_processed] in *.
  destruct (Hentry "Open Palm") as (K1 & N1 & C1).
  destruct (Hentry "Thumbs Up") as (K2 & N2 & C2).
  destruct (Hentry "Pointing") as (K3 & N3 & C3).
  destruct (Hentry "Crossed Arms") as (K4 & N4 & C4).
  destruct (Hentry "Victorious") as (K5 & N5 & C5).
  split; [reflexivity|]. split; [reflexivity|]. split.
  - intros label e Hin. simpl in Hin.
    destruct Hin as [H|[H|[H|[H|[H|[]]]]]];
      match type of H with
      | bucket_entry ?g ?l = _ =>
          destruct (bucket_entry g l) as [k v]; simpl in *;
          injection H as <- <-; subst; split; assumption
      end.
  - unfold total_count, Dict.values. cbn [map fold_right snd].
    rewrite C1, C2, C3, C4, C5, Hcounted. lia.
Qed.

(** X12. When every detection of the session carries one of the five
    classes the model is trained on, the counts of the two buckets add up
    to exactly [frames_processed]: no frame falls outside the buckets. *)
Theorem bucket_counts_cover_trained_classes (sessions : Dict.t Session)
    (data : option (Dict.t jval)) (end_time : Q) (r : Report.t)
    (sessions' : Dict.t Session) (s : Session) :
  reach sessions ->
  stop_session sessions data end_time = ((200%Z, SessionReport r), sessions') ->
  Dict.get sessions (Report.session_id r) = Some s ->
  (forall p, In (Some p) (detections s) -> In (class p) gesture_classes) ->
  (total_count (Report.allowed_gestures r)
   + total_count (Report.disallowed_gestures r)
   = Report.frames_processed r)%Z.
Proof.
  intros Hreach Hstop Hget Htrained.
  destruct (stop_session_report _ _ _ _ _ Hstop)
    as (sid & s0 & Hget0 & Hscore & _).
  assert (Hsid : Report.session_id r = sid).
  { destruct (score_inv _ _ _ _ Hscore) as (gp & _ & ->). reflexivity. }
  rewrite Hsid in Hget. assert (s0 = s) by congruence. subst s0.
  pose proof (all_counted_get _ _ _
                (reachable_counted _ _ _ _ _ _ _ _ Hreach) Hget) as Hcounted.
  pose proof (fun label => bucket_entry_counts _ _ _ _ label Hcounted Hscore)
    as Hentry.
  unfold counted in Hcounted.
  assert (Hnonnull : ~ In None (detections s)).
  { intros Hnull.
    assert (Hfail : exists e, score sid s end_time = inl e).
    { apply score_fails_iff. split; [|exact Hnull].
      rewrite Hcounted. destruct (detections s); [contradiction|simpl; lia]. }
    destruct Hfail as [e He]. congruence. }
  assert (Hsum : (allowed_count (detections s)
                  + disallowed_count (detections s)
                  = frames_processed s)%Z).
  { rewrite Hcounted. apply bucket_counts_trained.
    intros [p|] Hd; [|contradiction].
    exists p. split; [reflexivity|now apply Htrained]. }
  unfold allowed_count, disallowed_count in Hsum.
  destruct (score_inv _ _ _ _ Hscore) as (gp & _ & ->).
  cbn [Report.gesture_percentages Report.allowed_gestures
       Report.disallowed_gestures Report.frames_processed] in *.
  destruct (Hentry "Open Palm") as (_ & _ & C1).
  destruct (Hentry "Thumbs Up") as (_ & _ & C2).
  destruct (Hentry "Pointing") as (_ & _ & C3).
  destruct (Hentry "Crossed Arms") as (_ & _ & C4).
  destruct (Hentry "Victorious") as (_ & _ & C5).
  unfold total_count, Dict.values. cbn [map fold_right snd].
  rewrite C1, C2, C3, C4, C5. lia.
Qed.

Lemma get_Some_keys {V : Type} (d : Dict.t V) k v :
  Dict.get d k = Some v -> In k (Dict.keys d).
Proof.
  intros H. apply get_In in H. unfold Dict.keys.
  apply in_map_iff. now exists (k, v).
Qed.

(** X13. In the report of a session of a reachable store the gesture
    counts add up to [frames_processed]; every entry of the mapping has a
    count between 1 and [frames_processed] and a percentage above 0 and at
    most 100. *)
Theorem report_counts_add_up (sessions : Dict.t Session)
    (data : option (Dict.t jval)) (end_time : Q) (r : Report.t)
    (sessions' : Dict.t Session) :
  reach sessions ->
  stop_session sessions data end_time = ((200%Z, SessionReport r), sessions') ->
  total_count (Report.gesture_percentages r) = Report.frames_processed r
  /\ (forall label e,
        Dict.get (Report.gesture_percentages r) label = Some e ->
        (1 <= gesture_count e <= Report.frames_processed r)%Z
        /\ 0 < gesture_percentage e /\ gesture_percentage e <= 100).
Proof.
  intros Hreach Hstop.
  destruct (stop_session_report _ _ _ _ _ Hstop)
    as (sid & s & Hget & Hscore & _).
  pose proof (all_counted_get _ _ _
                (reachable_counted _ _ _ _ _ _ _ _ Hreach) Hget) as Hcounted.
  unfold counted in Hcounted.
  destruct (score_inv _ _ _ _ Hscore) as (gp & Hgp & ->).
  cbn [Report.gesture_percentages Report.frames_processed].
  destruct (0 <? frames_processed s)%Z eqn:Hpos.
  - apply Z.ltb_lt in Hpos.
    destruct Hgp as (gc & Htally & ->).
    destruct (tally_spec _ _ _ Htally) as (_ & Hcount & Hkeys & Hsum);
      [constructor|].
    split.
    + rewrite total_count_entries, Hsum, Hcounted. reflexivity.
    + intros label e. rewrite get_entries.
      destruct (Dict.get gc label) as [c|] eqn:Hc; [|discriminate].
      intros [= <-]. simpl.
      assert (Hceq : c = label_count label (detections s)).
      { specialize (Hcount label). unfold count_in in Hcount.
        now rewrite Hc in Hcount. }
      assert (Hobs : (1 <= c)%Z).
      { destruct (proj1 (Hkeys label) (get_Some_keys _ _ _ Hc))
          as [[]|(p & Hin & Hl)].
        rewrite Hceq. exact (label_count_observed _ _ _ Hin Hl). }
      assert (Hle : (c <= frames_processed s)%Z).
      { rewrite Hceq, Hcounted. apply label_count_le_length. }
      split; [lia|].
      assert (Hq : 0 < inject_Z (frames_processed s))
        by (unfold Qlt; simpl; lia).
      destruct (inject_Z_ratio_bounds c (frames_processed s)) as [_ Hhi];
        [lia|lia|lia|].
      assert (Hlo : 0 < inject_Z c / inject_Z (frames_processed s)).
      { apply Qlt_shift_div_l; [exact Hq|]. unfold Qlt. simpl. lia. }
      split; lra.
  - subst gp. apply Z.ltb_ge in Hpos. split.
    + change (total_count Dict.empty) with 0%Z. lia.
    + intros label e. discriminate.
Qed.

(** X14. A session id sent as a non-zero number is treated like the same
    id sent as its decimal string: on a stored session both handlers give
    the same answer and the same new store. *)
Theorem numeric_session_id_as_string (sessions : Dict.t Session) (d d' : Dict.t jval)
    (n : Z) (s : Session) (end_time : Q) :
  n <> 0%Z ->
  data_get d "session_id" = JInt n ->
  data_get d' "session_id" = JStr (str_of_int n) ->
  data_get d "image_data" = data_get d' "image_data" ->
  Dict.get sessions (str_of_int n) = Some s ->
  analyze sessions (Some d) = analyze sessions (Some d')
  /\ stop_session sessions (Some d) end_time
     = stop_session sessions (Some d') end_time.
Proof.
  intros Hn Hd Hd' Himg Hget.
  assert (Ht : truthy (JInt n) = true)
    by (simpl; now destruct (Z.eqb_spec n 0)).
  assert (Ht' : truthy (JStr (str_of_int n)) = true).
  { simpl. destruct (String.eqb_spec (str_of_int n) ""); [|reflexivity].
    now destruct (str_of_int_nonempty n). }
  assert (Hne : d <> [])
    by (apply (data_get_truthy_nonempty d "session_id"); now rewrite Hd).
  assert (Hne' : d' <> [])
    by (apply (data_get_truthy_nonempty d' "session_id"); now rewrite Hd').
  pose proof (lookup_found sessions (JInt n) s Hget) as Hl.
  pose proof (lookup_found sessions (JStr (str_of_int n)) s Hget) as Hl'.
  destruct d as [|kv d]; [congruence|].
  destruct d' as [|kv' d']; [congruence|].
  split.
  - unfold analyze_frame.
    rewrite Hd, Hd', Ht, Ht', Himg, Hl, Hl'. reflexivity.
  - unfold stop_session.
    rewrite Hd, Hd', Ht, Ht', Hl, Hl'. reflexivity.
Qed.

Lemma ratio_above_threshold (t c n : Z) :
  (0 < n)%Z ->
  inject_Z t < inject_Z c / inject_Z n * 100 <-> (t * n < 100 * c)%Z.
Proof.
  intros Hn.
  assert (Hq : 0 < inject_Z n) by (unfold Qlt; simpl; lia).
  assert (Hnz : ~ inject_Z n == 0) by (apply inject_Z_nonzero; lia).
  rewrite <- (Qmult_lt_r _ _ (inject_Z n) Hq).
  assert (Hrhs : inject_Z c / inject_Z n * 100 * inject_Z n
                 == inject_Z (100 * c))
    by (rewrite inject_Z_mult; field; exact Hnz).
  rewrite Hrhs, <- inject_Z_mult, <- Zlt_Qlt. reflexivity.
Qed.

Lemma exceeds_entries detections gesture_counts total_frames label (t : Z) :
  tally detections Dict.empty = inr gesture_counts ->
  (0 < total_frames)%Z -> (0 <= t)%Z ->
  exceeds (map (entry_of total_frames) gesture_counts) label (inject_Z t)
  = true
  <-> (t * total_frames < 100 * label_count label detections)%Z.
Proof.
  intros Htally Hn Ht.
  destruct (tally_spec _ _ _ Htally) as (_ & Hcount & _); [constructor|].
  specialize (Hcount label). unfold count_in in Hcount. simpl in Hcount.
  unfold exceeds. rewrite get_entries.
  destruct (Dict.get gesture_counts label) as [c|].
  - simpl. rewrite Qlt_bool_iff, <- Hcount. now apply ratio_above_threshold.
  - rewrite <- Hcount. split; [discriminate|]. nia.
Qed.

(** X15. In terms of frames: the report of a session of a reachable store
    praises open palms exactly when more than a fifth of the frames show
    them, thumbs up and pointing exactly when more than a tenth do, and
    warns about crossed arms and about victory signs exactly when more
    than three twentieths of the frames show them. *)
Theorem feedback_thresholds_in_frames (sessions : Dict.t Session)
    (data : option (Dict.t jval)) (end_time : Q) (r : Report.t)
    (sessions' : Dict.t Session) (s : Session) :
  reach sessions ->
  stop_session sessions data end_time = ((200%Z, SessionReport r), sessions') ->
  Dict.get sessions (Report.session_id r) = Some s ->
  let frames := frames_processed s in
  let count := fun label => label_count label (detections s) in
  (str_contains (Report.feedback r) positive_open_palm = true
     <-> (frames < 5 * count "Open Palm")%Z)
  /\ (str_contains (Report.feedback r) positive_thumbs_up = true
     <-> (frames < 10 * count "Thumbs Up")%Z)
  /\ (str_contains (Report.feedback r) positive_pointing = true
     <-> (frames < 10 * count "Pointing")%Z)
  /\ (str_contains (Report.feedback r) corrective_crossed_arms = true
     <-> (3 * frames < 20 * count "Crossed Arms")%Z)
  /\ (str_contains (Report.feedback r) corrective_victorious = true
     <-> (3 * frames < 20 * count "Victorious")%Z).
Proof.
  intros Hreach Hstop Hget frames count. subst frames count.
  destruct (stop_session_report _ _ _ _ _ Hstop)
    as (sid & s0 & Hget0 & Hscore & _).
  assert (Hsid : Report.session_id r = sid).
  { destruct (score_inv _ _ _ _ Hscore) as (gp & _ & ->). reflexivity. }
  rewrite Hsid in Hget. assert (s0 = s) by congruence. subst s0.
  pose proof (all_counted_get _ _ _
                (reachable_counted _ _ _ _ _ _ _ _ Hreach) Hget) as Hcounted.
  unfold counted in Hcounted.
  destruct (score_inv _ _ _ _ Hscore) as (gp & Hgp & ->).
  cbn [Report.feedback].
  destruct (feedback_contains gp) as (-> & -> & -> & -> & ->).
  destruct (0 <? frames_processed s)%Z eqn:Hpos.
  - apply Z.ltb_lt in Hpos.
    destruct Hgp as (gc & Htally & ->).
    change 20 with (inject_Z 20). change 10 with (inject_Z 10).
    change 15 with (inject_Z 15).
    rewrite !(exceeds_entries _ _ _ _ _ Htally Hpos) by lia.
    repeat split; lia.
  - subst gp. apply Z.ltb_ge in Hpos.
    assert (Hnil : detections s = [])
      by (destruct (detections s); [reflexivity|simpl in Hcounted; lia]).
    rewrite Hnil in *. simpl in Hcounted.
    assert (Hzero : forall label, label_count label [] = 0%Z)
      by reflexivity.
    rewrite !Hzero. unfold exceeds. cbn [Dict.get Dict.empty].
    repeat split; intros H; try discriminate H; exfalso; lia.
Qed.
End MoreSessionFacts.

(** ** A detector without a model *)

Lemma stop_session_null_fault (sessions : Dict.t Session) (d : Dict.t jval)
    (s : Session) (end_time : Q) :
  truthy (data_get d "session_id") = true ->
  Dict.get sessions (py_str (data_get d "session_id")) = Some s ->
  (0 < frames_processed s)%Z ->
  In None (detections s) ->
  stop_session sessions (Some d) end_time
  = ((500%Z, ErrorOnly "'NoneType' object is not subscriptable"), sessions).
Proof.
  intros Hsid Hget Hpos Hnull.
  pose proof (data_get_truthy_nonempty _ _ Hsid) as Hd.
  unfold stop_session. destruct d as [|kv d]; [congruence|].
  rewrite Hsid. simpl negb. cbv iota.
  rewrite (lookup_found _ _ _ Hget).
  unfold score. apply Z.ltb_lt in Hpos.
  rewrite Hpos, (tally_null _ Hnull). reflexivity.
Qed.

(** Without a model every recorded detection is null. *)
Lemma reachable_without_model (frame : Type)
    (holistic_process : frame -> Results)
    (draw_landmarks : frame -> list Landmark -> frame)
    (putText : frame -> Prediction -> frame)
    (imdecode : string -> except (option frame))
    (imencode : frame -> except string) (sessions : Dict.t Session) :
  reachable frame holistic_process draw_landmarks putText None
    imdecode imencode sessions ->
  Forall (fun kv => forall d, In d (detections (snd kv)) -> d = None) sessions.
Proof.
  induction 1 as [|sessions r _ IH]; [constructor|].
  destruct r as [now now'|data|data end_time]; simpl.
  - apply Forall_set; [|exact IH]. intros k d [].
  - destruct (analyze_frame_store frame holistic_process draw_landmarks
                putText None imdecode imencode sessions data)
      as [->|(d & s & image & _ & _ & Hget & ->)]; [exact IH|].
    apply Forall_set; [|exact IH].
    intros k p Hin. simpl in Hin. apply in_app_or in Hin.
    destruct Hin as [Hin|[<-|[]]].
    + apply get_In in Hget. rewrite Forall_forall in IH.
      exact (IH _ Hget p Hin).
    + unfold detector_process_frame, process_frame.
      now destruct (pose_landmarks (holistic_process image)).
  - unfold stop_session.
    destruct data as [[|kv d]|]; try exact IH.
    destruct (negb (truthy _)); [exact IH|].
    destruct (lookup _ _) as [[sid s]|]; [|exact IH].
    destruct (score sid s end_time); [exact IH|].
    now apply Forall_del.
Qed.

(** X17. When the model file could not be loaded the server still runs,
    but every detection it records is null, so no session that has
    processed a frame can be finalized: [stop_session] answers 500 and
    keeps the session. *)
Theorem missing_model_blocks_finalize (frame : Type)
    (holistic_process : frame -> Results)
    (draw_landmarks : frame -> list Landmark -> frame)
    (putText : frame -> Prediction -> frame)
    (imdecode : string -> except (option frame))
    (imencode : frame -> except string) (load_error : exn)
    (sessions : Dict.t Session) (d : Dict.t jval) (s : Session)
    (end_time : Q) :
  reachable frame holistic_process draw_landmarks putText
    (load_model (inl load_error)) imdecode imencode sessions ->
  truthy (data_get d "session_id") = true ->
  Dict.get sessions (py_str (data_get d "session_id")) = Some s ->
  (0 < frames_processed s)%Z ->
  (forall detection, In detection (detections s) -> detection = None)
  /\ stop_session sessions (Some d) end_time
     = ((500%Z, ErrorOnly "'NoneType' object is not subscriptable"),
        sessions).
Proof.
  intros Hreach Hsid Hget Hpos. simpl load_model in Hreach.
  pose proof (reachable_without_model _ _ _ _ _ _ _ Hreach) as Hall.
  rewrite Forall_forall in Hall.
  pose proof (Hall _ (get_In _ _ _ Hget)) as Hnull. simpl in Hnull.
  split; [exact Hnull|].
  apply (stop_session_null_fault _ _ s); try assumption.
  pose proof (all_counted_get _ _ _
                (reachable_counted _ _ _ _ _ _ _ _ Hreach) Hget) as Hcounted.
  unfold counted in Hcounted.
  destruct (detections s) as [|d0 rest]; [simpl in Hcounted; lia|].
  rewrite (Hnull d0 (or_introl eq_refl)). now left.
Qed.

(** ** The further properties on concrete requests *)

Lemma stop_session_finalizes_once_witness :
  exists r sessions',
    stop_session Sample.one_person_frame (Sample.stop_request "7") 9
    = ((200%Z, SessionReport r), sessions')
    /\ Dict.get sessions' "7" = None
    /\ stop_session sessions' (Sample.stop_request "7") 10
       = ((200%Z,
           NotFoundReport "Session ID not found: 7" (JStr "7") 0 0 Dict.empty
             "No session data available" 0),
          sessions').
Proof.
  destruct (stop_session_finalizes_once _ _ _ _ _ _ _
              Sample.one_person_frame [("session_id", JStr "7")] 9 _ _
              sample_one_person_frame_reachable eq_refl)
    as (_ & Hgone & _ & Hagain).
  eexists. eexists. split; [reflexivity|].
  split; [exact Hgone|exact (Hagain 10)].
Defined.

Lemma encode_failure_still_counts_witness :
  analyze_frame Results Sample.holistic_process Sample.draw_landmarks
    Sample.putText (Some Sample.model) Sample.imdecode
    (fun _ => raise (ValueError "encode"))
    Sample.started (Sample.frame_request "7" "P")
  = ((200%Z, FrameResult "" None (Some "Error processing frame: encode")),
     [("7", mkSession 7 1 [Some (mkPrediction "Open Palm" (9 # 10))])]).
Proof.
  exact (encode_failure_still_counts Results Sample.holistic_process
           Sample.draw_landmarks Sample.putText (Some Sample.model)
           Sample.imdecode (fun _ => raise (ValueError "encode"))
           Sample.started
           [("session_id", JStr "7"); ("image_data", JStr "data:,P")]
           (mkSession 7 0 []) Sample.person (ValueError "encode")
           eq_refl eq_refl eq_refl eq_refl eq_refl).
Defined.

Lemma bucket_counts_in_report_witness :
  exists r sessions',
    stop_session Sample.one_person_frame (Sample.stop_request "7") 9
    = ((200%Z, SessionReport r), sessions')
    /\ Dict.keys (Report.allowed_gestures r)
       = ["Open Palm"; "Thumbs Up"; "Pointing"]
    /\ (total_count (Report.allowed_gestures r)
        + total_count (Report.disallowed_gestures r)
        <= Report.frames_processed r)%Z.
Proof.
  destruct (bucket_counts_in_report _ _ _ _ _ _ _
              Sample.one_person_frame (Sample.stop_request "7") 9 _ _
              (mkSession 7 1 [Some (mkPrediction "Open Palm" (9 # 10))])
              sample_one_person_frame_reachable eq_refl eq_refl)
    as (Hkeys & _ & _ & Hle).
  eexists. eexists. split; [reflexivity|].
  split; [exact Hkeys|exact Hle].
Defined.

Lemma bucket_counts_cover_trained_classes_witness :
  exists r sessions',
    stop_session Sample.one_person_frame (Sample.stop_request "7") 9
    = ((200%Z, SessionReport r), sessions')
    /\ (total_count (Report.allowed_gestures r)
        + total_count (Report.disallowed_gestures r)
        = Report.frames_processed r)%Z.
Proof.
  eexists. eexists. split; [reflexivity|].
  apply (bucket_counts_cover_trained_classes _ _ _ _ _ _ _
           Sample.one_person_frame (Sample.stop_request "7") 9 _ _
           (mkSession 7 1 [Some (mkPrediction "Open Palm" (9 # 10))])
           sample_one_person_frame_reachable eq_refl eq_refl).
  intros p [[= <-]|[]]. simpl. tauto.
Defined.

Lemma report_counts_add_up_witness :
  exists r sessions',
    stop_session Sample.one_person_frame (Sample.stop_request "7") 9
    = ((200%Z, SessionReport r), sessions')
    /\ total_count (Report.gesture_percentages r) = Report.frames_processed r.
Proof.
  eexists. eexists. split; [reflexivity|].
  exact (proj1 (report_counts_add_up _ _ _ _ _ _ _
                  Sample.one_person_frame (Sample.stop_request "7") 9 _ _
                  sample_one_person_frame_reachable eq_refl)).
Defined.

Lemma numeric_session_id_as_string_witness :
  stop_session Sample.started (Some [("session_id", JInt 7)]) 9
  = stop_session Sample.started (Some [("session_id", JStr "7")]) 9.
Proof.
  apply (numeric_session_id_as_string Results Sample.holistic_process
           Sample.draw_landmarks Sample.putText (Some Sample.model)
           Sample.imdecode Sample.imencode Sample.started
           [("session_id", JInt 7)] [("session_id", JStr "7")] 7
           (mkSession 7 0 []) 9).
  - discriminate.
  - reflexivity.
  - reflexivity.
  - reflexivity.
  - reflexivity.
Defined.

Lemma feedback_thresholds_in_frames_witness :
  exists r sessions',
    stop_session Sample.one_person_frame (Sample.stop_request "7") 9
    = ((200%Z, SessionReport r), sessions')
    /\ str_contains (Report.feedback r) positive_open_palm = true.
Proof.
  eexists. eexists. split; [reflexivity|].
  apply (proj1 (feedback_thresholds_in_frames _ _ _ _ _ _ _
                  Sample.one_person_frame (Sample.stop_request "7") 9 _ _
                  (mkSession 7 1 [Some (mkPrediction "Open Palm" (9 # 10))])
                  sample_one_person_frame_reachable eq_refl eq_refl)).
  reflexivity.
Defined.

Lemma missing_model_blocks_finalize_witness :
  stop_session [("7", mkSession 7 1 [None])] (Sample.stop_request "7") 9
  = ((500%Z, ErrorOnly "'NoneType' object is not subscriptable"),
     [("7", mkSession 7 1 [None])]).
Proof.
  apply (proj2 (missing_model_blocks_finalize Results Sample.holistic_process
                  Sample.draw_landmarks Sample.putText Sample.imdecode
                  Sample.imencode (ValueError "no model")
                  [("7", mkSession 7 1 [None])] [("session_id", JStr "7")]
                  (mkSession 7 1 [None]) 9
                  (reachable_step _ _ _ _ _ _ _ Sample.started
                     (AnalyzeFrame (Sample.frame_request "7" "P"))
                     (reachable_step _ _ _ _ _ _ _ Dict.empty
                        (StartSession 7 7)
                        (reachable_init _ _ _ _ _ _ _)))
                  eq_refl eq_refl eq_refl)).
Defined.

(** ** Data URLs and the life of a session *)

Lemma split_on_without_separator (s : string) :
  str_contains s "," = false -> split_on "," s = [s].
Proof.
  induction s as [|a rest IH]; [reflexivity|].
  cbn [str_contains String.prefix split_on].
  destruct (Ascii.ascii_dec "," a) as [<-|Hne].
  - now destruct rest.
  - destruct (Ascii.eqb_spec a ","); [congruence|].
    intros H. now rewrite (IH H).
Qed.

Lemma analyze_frame_decode_error (frame : Type)
    (holistic_process : frame -> Results)
    (draw_landmarks : frame -> list Landmark -> frame)
    (putText : frame -> Prediction -> frame) (model : option Model)
    (imdecode : string -> except (option frame))
    (imencode : frame -> except string)
    (sessions : Dict.t Session) (d : Dict.t jval) (s : Session) (e : exn) :
  truthy (data_get d "session_id") = true ->
  truthy (data_get d "image_data") = true ->
  Dict.get sessions (py_str (data_get d "session_id")) = Some s ->
  decode_frame frame imdecode (data_get d "image_data") = inl e ->
  analyze_frame frame holistic_process draw_landmarks putText model
    imdecode imencode sessions (Some d)
  = ((200%Z,
      FrameResult "" None (Some ("Error processing frame: " ++ exn_str e))),
     sessions).
Proof.
  intros Hsid Himg Hget Hdecode.
  pose proof (data_get_truthy_nonempty _ _ Hsid) as Hd.
  unfold analyze_frame. destruct d as [|kv d]; [congruence|].
  rewrite Hsid, Himg. simpl negb. cbv iota.
  now rewrite (lookup_found _ _ _ Hget), Hdecode.
Qed.

(** X18. Image data that is a string without a comma (no data-URL
    header) makes [analyze_frame] answer with status 200, a null
    prediction and the text of the [IndexError]; the image is never
    decoded and the frame is not counted. *)
Theorem image_data_without_comma (frame : Type)
    (holistic_process : frame -> Results)
    (draw_landmarks : frame -> list Landmark -> frame)
    (putText : frame -> Prediction -> frame) (model : option Model)
    (imdecode : string -> except (option frame))
    (imencode : frame -> except string)
    (sessions : Dict.t Session) (d : Dict.t jval) (s : Session)
    (image_data : string) :
  truthy (data_get d "session_id") = true ->
  Dict.get sessions (py_str (data_get d "session_id")) = Some s ->
  data_get d "image_data" = JStr image_data ->
  image_data <> "" ->
  str_contains image_data "," = false ->
  analyze_frame frame holistic_process draw_landmarks putText model
    imdecode imencode sessions (Some d)
  = ((200%Z,
      FrameResult "" None
        (Some "Error processing frame: list index out of range")),
     sessions).
Proof.
  intros Hsid Hget Himg Hne Hcomma.
  apply (analyze_frame_decode_error _ _ _ _ _ _ _ _ _ s
           (IndexError "list index out of range")); try assumption.
  - rewrite Himg. simpl. now destruct (String.eqb_spec image_data "").
  - rewrite Himg. unfold decode_frame. simpl bind.
    now rewrite (split_on_without_separator _ Hcomma).
Qed.

Lemma image_data_without_comma_witness :
  Sample.analyze_frame Sample.started
    (Some [("session_id", JStr "7"); ("image_data", JStr "P")])
  = ((200%Z,
      FrameResult "" None
        (Some "Error processing frame: list index out of range")),
     Sample.started).
Proof.
  apply (image_data_without_comma Results Sample.holistic_process
           Sample.draw_landmarks Sample.putText (Some Sample.model)
           Sample.imdecode Sample.imencode Sample.started
           [("session_id", JStr "7"); ("image_data", JStr "P")]
           (mkSession 7 0 []) "P").
  - reflexivity.
  - reflexivity.
  - reflexivity.
  - discriminate.
  - reflexivity.
Defined.

(** Frames analyzed after the start keep the start time of a session and
    keep its counter equal to the number of its detections. *)
Lemma run_analyze_keeps_session (frame : Type)
    (holistic_process : frame -> Results)
    (draw_landmarks : frame -> list Landmark -> frame)
    (putText : frame -> Prediction -> frame) (model : option Model)
    (imdecode : string -> except (option frame))
    (imencode : frame -> except string)
    (datas : list (option (Dict.t jval))) :
  forall (sessions : Dict.t Session) sid s,
    Dict.get sessions sid = Some s ->
    counted s ->
    exists s',
      Dict.get (run frame holistic_process draw_landmarks putText model
                  imdecode imencode sessions (map AnalyzeFrame datas)) sid
      = Some s'
      /\ start_time s' = start_time s
      /\ counted s'.
Proof.
  induction datas as [|data datas IH]; intros sessions sid s Hget Hcounted.
  - exists s. now repeat split.
  - simpl.
    destruct (analyze_frame_store frame holistic_process draw_landmarks
                putText model imdecode imencode sessions data)
      as [->|(d & s0 & image & _ & _ & Hget0 & ->)].
    + now apply IH.
    + destruct (string_dec (py_str (data_get d "session_id")) sid)
        as [Heq|Hne].
      * rewrite Heq in *. assert (s0 = s) by congruence. subst s0.
        destruct (IH (Dict.set sessions sid
                        (mkSession (start_time s) (frames_processed s + 1)
                           (detections s ++
                            [snd (detector_process_frame frame
                                    holistic_process draw_landmarks putText
                                    model image)])))
                    sid
                    (mkSession (start_time s) (frames_processed s + 1)
                       (detections s ++
                        [snd (detector_process_frame frame
                                holistic_process draw_landmarks putText
                                model image)])))
          as (s' & Hs' & Ht & Hc).
        -- apply get_set_same.
        -- unfold counted in *. simpl. rewrite Hcounted, length_app.
           simpl. lia.
        -- exists s'. now repeat split.
      * apply (IH _ sid s); [|exact Hcounted].
        now rewrite (get_set_other _ _ _ _ Hne).
Qed.

(** X19. The life of a session: it is started, any number of frames are
    analyzed, it is stopped. If the stop returns a report, the report
    carries the id the start returned, its duration is the stop time minus
    the start time, and [frames_processed] is the number of detections
    recorded since the start, none of which is null. *)
Theorem session_lifecycle (frame : Type)
    (holistic_process : frame -> Results)
    (draw_landmarks : frame -> list Landmark -> frame)
    (putText : frame -> Prediction -> frame) (model : option Model)
    (imdecode : string -> except (option frame))
    (imencode : frame -> except string)
    (sessions : Dict.t Session) (now now' : Q)
    (datas : list (option (Dict.t jval))) (d : Dict.t jval) (end_time : Q)
    (r : Report.t) (sessions' : Dict.t Session) :
  let sid := str_of_int (py_int now) in
  let analyzed :=
    run frame holistic_process draw_landmarks putText model imdecode imencode
      (snd (start_session sessions now now')) (map AnalyzeFrame datas) in
  py_str (data_get d "session_id") = sid ->
  stop_session analyzed (Some d) end_time
    = ((200%Z, SessionReport r), sessions') ->
  Report.session_id r = sid
  /\ Report.duration r = end_time - now'
  /\ exists s,
       Dict.get analyzed sid = Some s
       /\ Report.frames_processed r = Z.of_nat (length (detections s))
       /\ ~ In None (detections s).
Proof.
  intros sid analyzed Hd Hstop.
  destruct (run_analyze_keeps_session frame holistic_process draw_landmarks
              putText model imdecode imencode datas
              (snd (start_session sessions now now')) sid
              (mkSession now' 0 []))
    as (s & Hs & Htime & Hcounted).
  { apply get_set_same. }
  { reflexivity. }
  fold analyzed in Hs.
  unfold stop_session in Hstop.
  destruct d as [|kv d]; [discriminate|].
  destruct (negb (truthy _)); [discriminate|].
  destruct (lookup _ _) as [[sid0 s0]|] eqn:Hl; [|discriminate].
  apply lookup_resolve_key in Hl. destruct Hl as [-> Hget].
  rewrite Hd in Hget. rewrite Hd in Hstop.
  assert (s0 = s) by congruence. subst s0.
  destruct (score sid s end_time) as [e|r'] eqn:Hscore; [discriminate|].
  injection Hstop as <- <-.
  assert (Hnonnull : ~ In None (detections s)).
  { intros Hnull.
    assert (Hfail : exists e, score sid s end_time = inl e).
    { apply score_fails_iff. split; [|exact Hnull].
      unfold counted in Hcounted. rewrite Hcounted.
      destruct (detections s); [contradiction|simpl; lia]. }
    destruct Hfail as [e He]. congruence. }
  destruct (score_inv _ _ _ _ Hscore) as (gp & _ & ->).
  cbn [Report.session_id Report.duration Report.frames_processed].
  split; [reflexivity|]. split; [now rewrite Htime|].
  exists s. split; [exact Hs|]. split; [exact Hcounted|exact Hnonnull].
Qed.

Lemma session_lifecycle_witness :
  exists r sessions',
    stop_session Sample.one_person_frame (Sample.stop_request "7") 9
    = ((200%Z, SessionReport r), sessions')
    /\ Report.session_id r = "7"
    /\ Report.duration r = 9 - 7.
Proof.
  destruct (session_lifecycle Results Sample.holistic_process
              Sample.draw_landmarks Sample.putText (Some Sample.model)
              Sample.imdecode Sample.imencode Dict.empty 7 7
              [Sample.frame_request "7" "P"] [("session_id", JStr "7")] 9
              _ _ eq_refl eq_refl) as (Hid & Hduration & _).
  eexists. eexists. split; [reflexivity|].
  split; [exact Hid|exact Hduration].
Defined.

(** ** Requests outside the parsed domain *)

Section RequestFacts.
Variable frame : Type.
Variable holistic_process : frame -> Results.
Variable draw_landmarks : frame -> list Landmark -> frame.
Variable putText : frame -> Prediction -> frame.
Variable model : option Model.
Variable imdecode : string -> except (option frame).
Variable imencode : frame -> except string.
Variable str_repr : string -> string.

Local Abbreviation reach :=
  (reachable frame holistic_process draw_landmarks putText model
     imdecode imencode).
Local Abbreviation analyze_request :=
  (analyze_frame_request frame holistic_process draw_landmarks putText model
     imdecode imencode str_repr).
Local Abbreviation stop_request := (stop_session_request str_repr).
Local Abbreviation str_of := (json_str str_repr).

Lemma truthy_str_nonempty (v : jval) : truthy v = true -> py_str v <> "".
Proof.
  destruct v as [|[|]|n|s]; simpl; try discriminate.
  - intros _. apply str_of_int_nonempty.
  - destruct (String.eqb_spec s ""); [discriminate|trivial].
Qed.


(** A request never takes the store out of the reachable ones. *)
Lemma requests_keep_reachable (sessions : Dict.t Session)
    (request_json : except json) (end_time : Q) :
  reach sessions ->
  reach (snd (stop_request sessions request_json end_time))
  /\ reach (snd (analyze_request sessions request_json)).
Proof.
  intros Hreach.
  assert (Hstop : forall data,
            reach (snd (stop_session sessions data end_time)))
    by (intros data; exact (reachable_step _ _ _ _ _ _ _ sessions
                              (StopSession data end_time) Hreach)).
  assert (Hanalyze : forall data,
            reach (snd (analyze_frame frame holistic_process draw_landmarks
                          putText model imdecode imencode sessions data)))
    by (intros data; exact (reachable_step _ _ _ _ _ _ _ sessions
                              (AnalyzeFrame data) Hreach)).
  unfold stop_session_request, analyze_frame_request.
  destruct request_json as [e|data]; [now split|].
  destruct (negb (json_truthy data)); [now split|].
  destruct data as [v|items|fields]; try (now split).
  split.
  - destruct (json_get fields "session_id") as [v|items|fields'];
      [apply Hstop| |];
      (destruct (negb (json_truthy _)); [exact Hreach|]);
      (destruct (lookup _ _); [apply Hstop|exact Hreach]).
  - cbv zeta.
    destruct (negb (json_truthy (json_get fields "session_id")));
      [exact Hreach|].
    destruct (negb (json_truthy (json_get fields "image_data")));
      [exact Hreach|].
    destruct (lookup _ _) as [[sid s]|].
    + destruct (json_get fields "image_data"); [apply Hanalyze| |];
        exact Hreach.
    + destruct (is_scalar _); exact Hreach.
Qed.

Lemma json_get_of_parsed (d : Dict.t jval) (k : string) :
  json_get (map (fun kv => (fst kv, JScalar (snd kv))) d) k
  = JScalar (data_get d k).
Proof.
  unfold json_get, data_get.
  induction d as [|[k' v] d IH]; simpl; [reflexivity|].
  destruct (String.eqb k' k); [reflexivity|exact IH].
Qed.

Lemma lookup_resolve_str (sessions : Dict.t Session) (v : jval) :
  lookup sessions (resolve sessions (JStr (py_str v)))
  = lookup sessions (resolve sessions v).
Proof.
  destruct (Dict.get sessions (py_str v)) as [s|] eqn:Hget.
  - rewrite (lookup_found sessions v s Hget).
    exact (lookup_found sessions (JStr (py_str v)) s Hget).
  - destruct (lookup_absent sessions v Hget) as [_ ->].
    now destruct (lookup_absent sessions (JStr (py_str v)) Hget) as [_ ->].
Qed.

(** On a parsed request the two embeddings of [stop_session] agree. *)
Lemma stop_session_request_parsed (sessions : Dict.t Session)
    (data : option (Dict.t jval)) (end_time : Q) :
  stop_request sessions (inr (of_parsed data)) end_time
  = stop_session sessions data end_time.
Proof.
  destruct data as [[|kv d]|]; try reflexivity.
  unfold stop_session_request, of_parsed.
  change (json_truthy (JObject (map _ (kv :: d)))) with true.
  cbn [negb]. cbv iota. now rewrite json_get_of_parsed.
Qed.

(** On a parsed request the two embeddings of [analyze_frame] agree. *)
Lemma analyze_frame_request_parsed (sessions : Dict.t Session)
    (data : option (Dict.t jval)) :
  analyze_request sessions (inr (of_parsed data))
  = analyze_frame frame holistic_process draw_landmarks putText model
      imdecode imencode sessions data.
Proof.
  destruct data as [[|kv d]|]; try reflexivity.
  unfold analyze_frame_request, of_parsed.
  change (json_truthy (JObject (map _ (kv :: d)))) with true.
  cbn [negb]. cbv iota zeta. rewrite !json_get_of_parsed.
  unfold analyze_frame. cbv zeta.
  cbn [json_truthy json_str is_scalar].
  destruct (truthy (data_get (kv :: d) "session_id")) eqn:Hsid;
    [|reflexivity].
  destruct (truthy (data_get (kv :: d) "image_data")) eqn:Himg;
    [|reflexivity].
  cbn [negb]. rewrite lookup_resolve_str.
  destruct (lookup sessions (resolve sessions _)) as [[sid s]|] eqn:Hl;
    [|reflexivity].
  destruct (lookup_resolve_key _ _ _ _ Hl) as [Hkey Hget].
  assert (Hsid' : truthy (JStr sid) = true).
  { simpl. destruct (String.eqb_spec sid ""); [|reflexivity].
    subst sid. now destruct (truthy_str_nonempty _ Hsid). }
  change (data_get [("session_id", JStr sid); ("image_data", ?w)]
            "session_id") with (JStr sid).
  change (data_get [("session_id", JStr sid);
                    ("image_data", data_get (kv :: d) "image_data")]
            "image_data") with (data_get (kv :: d) "image_data").
  rewrite Hsid', Himg. cbn [negb].
  now rewrite (lookup_found sessions (JStr sid) s Hget).
Qed.


(** X16. What each handler answers to a request it cannot use. When
    [request.json] raises, or the body is a non-empty value other than an
    object, [stop_session] answers 500 with the text of the exception and
    [analyze_frame] answers 200 with that text as its error. An empty
    body (null, false, 0, an empty string, list or object) or a
    [session_id] that is missing or empty is answered with 200 and empty
    metrics by [stop_session] and with 400 by [analyze_frame], which also
    answers 400 when [image_data] is missing or empty, before it looks the
    session up. None of these changes the store. *)
Theorem unusable_request_answers (sessions : Dict.t Session)
    (request_json : except json) (end_time : Q) :
  let stop := stop_request sessions request_json end_time in
  let analyze := analyze_request sessions request_json in
  (forall e,
     request_json = inl e ->
     stop = ((500%Z, ErrorOnly (exn_str e)), sessions)
     /\ analyze = ((200%Z, FrameResult "" None (Some (exn_str e))), sessions))
  /\ (forall data,
        request_json = inr data ->
        json_truthy data = true ->
        is_object data = false ->
        let msg := "'" ++ type_name data
                   ++ "' object has no attribute 'get'" in
        stop = ((500%Z, ErrorOnly msg), sessions)
        /\ analyze = ((200%Z, FrameResult "" None (Some msg)), sessions))
  /\ (forall data,
        request_json = inr data ->
        json_truthy data = false ->
        stop = ((200%Z, ErrorMetrics "No data provided"), sessions)
        /\ analyze = ((400%Z, ErrorOnly "No data provided"), sessions))
  /\ (forall fields,
        request_json = inr (JObject fields) ->
        json_truthy (JObject fields) = true ->
        json_truthy (json_get fields "session_id") = false ->
        stop = ((200%Z, ErrorMetrics "Missing session_id"), sessions)
        /\ analyze = ((400%Z, ErrorOnly "Missing session_id"), sessions))
  /\ (forall fields,
        request_json = inr (JObject fields) ->
        json_truthy (JObject fields) = true ->
        json_truthy (json_get fields "session_id") = true ->
        json_truthy (json_get fields "image_data") = false ->
        analyze = ((400%Z, ErrorOnly "Missing image_data"), sessions)).
Proof.
  intros stop analyze. subst stop analyze.
  unfold stop_session_request, analyze_frame_request.
  split; [|split; [|split; [|split]]].
  - now intros e ->.
  - intros data -> Ht Hobj. rewrite Ht.
    destruct data; [now split|now split|discriminate Hobj].
  - intros data -> Ht. now rewrite Ht.
  - intros fields -> Ht Hid. rewrite Ht. cbn [negb]. cbv zeta.
    rewrite Hid. split; [|reflexivity].
    destruct (json_get fields "session_id") as [v|items|fields'];
      cbv beta iota; [|now rewrite Hid|now rewrite Hid].
    simpl in Hid. unfold stop_session.
    change (data_get [("session_id", v)] "session_id") with v.
    now rewrite Hid.
  - intros fields -> Ht Hid Himg. rewrite Ht. cbv zeta.
    now rewrite Hid, Himg.
Qed.
End RequestFacts.

